(** * Xornet client: the request client and the realtime channel

    A shallow embedding of [services/api] (classes [API], [Datacenter],
    [User], [Machine]), of [services/socket.js] and of the dark-mode
    toggle, with the properties the specification states about them and
    further ones the code shows. *)

From Stdlib Require Import String Ascii ZArith List Bool Lia.
From stdpp Require Import base option gmap strings pretty.
Import ListNotations.

Local Open Scope Z_scope.
Local Open Scope stdpp_scope.
Set Warnings "-register-all".

(** ** JavaScript values *)

(** The values that flow through the client.  Numbers are integers of
    ordinary size (status codes and counts, well below the 10^21 from
    which JavaScript prints exponents); objects are property lists in
    insertion order, integer-like names included; [VBlob] is a browser [Blob] or [File] with its bytes, and
    [VFormData] a browser [FormData] with its entries. *)
Inductive value : Type :=
| VUndefined
| VNull
| VBool (b : bool)
| VNum (n : Z)
| VStr (s : string)
| VArr (items : list value)
| VObj (props : list (string * value))
| VBlob (bytes : string)
| VFormData (entries : list (string * value)).

(** Truthiness, as [if (v)], [!v] and [v || w] see it. *)
Definition truthy (v : value) : bool :=
  match v with
  | VUndefined | VNull => false
  | VBool b => b
  | VNum n => negb (Z.eqb n 0)
  | VStr s => negb (String.eqb s "")
  | VArr _ | VObj _ | VBlob _ | VFormData _ => true
  end.

(** [a || b] *)
Definition or_else (a b : value) : value := if truthy a then a else b.

Fixpoint lookup_prop (k : string) (props : list (string * value)) : value :=
  match props with
  | [] => VUndefined
  | (k', v) :: rest => if String.eqb k k' then v else lookup_prop k rest
  end.

(** [obj[k] = v] on a property list: an existing key keeps its place. *)
Fixpoint set_prop (k : string) (v : value) (props : list (string * value))
  : list (string * value) :=
  match props with
  | [] => [(k, v)]
  | (k', v') :: rest =>
      if String.eqb k k' then (k, v) :: rest else (k', v') :: set_prop k v rest
  end.

(** [v.k] for a named data property: [None] stands for the [TypeError] of
    reading a property of [undefined] or [null].  Only own data properties
    are modelled; the names this client reads ([data], [message], [status],
    [token], ...) are on no built-in prototype. *)
Definition prop (v : value) (k : string) : option value :=
  match v with
  | VUndefined | VNull => None
  | VObj props => Some (lookup_prop k props)
  | _ => Some VUndefined
  end.

(** [v?.k] *)
Definition opt_prop (v : value) (k : string) : value :=
  match prop v k with
  | Some x => x
  | None => VUndefined
  end.

(** ** Strings *)

Definition upper_char (c : ascii) : ascii :=
  let n := nat_of_ascii c in
  if (97 <=? n)%nat && (n <=? 122)%nat then ascii_of_nat (n - 32) else c.

Definition lower_char (c : ascii) : ascii :=
  let n := nat_of_ascii c in
  if (65 <=? n)%nat && (n <=? 90)%nat then ascii_of_nat (n + 32) else c.

Fixpoint map_string (f : ascii -> ascii) (s : string) : string :=
  match s with
  | EmptyString => EmptyString
  | String c t => String (f c) (map_string f t)
  end.

(** [s.toUpperCase()] and [s.toLowerCase()] on 7-bit text. *)
Definition toUpperCase : string -> string := map_string upper_char.
Definition toLowerCase : string -> string := map_string lower_char.

Fixpoint join (sep : string) (parts : list string) : string :=
  match parts with
  | [] => ""
  | [p] => p
  | p :: rest => p +:+ sep +:+ join sep rest
  end.

(** The string a template literal or a storage write makes of a value. *)
Fixpoint ToString (v : value) : string :=
  match v with
  | VUndefined => "undefined"
  | VNull => "null"
  | VBool true => "true"
  | VBool false => "false"
  | VNum n => pretty n
  | VStr s => s
  | VArr items =>
      join "," (List.map (fun x => match x with
                                   | VUndefined | VNull => ""
                                   | _ => ToString x
                                   end) items)
  | VObj _ => "[object Object]"
  | VBlob _ => "[object Blob]"
  | VFormData _ => "[object FormData]"
  end.

(** Occurrences of two adjacent slashes in a URL. *)
Fixpoint double_slashes (s : string) : nat :=
  match s with
  | EmptyString => O
  | String c t =>
      match c, t with
      | "/"%char, String "/"%char _ => S (double_slashes t)
      | _, _ => double_slashes t
      end
  end.

Definition is_space (c : ascii) : bool :=
  let n := nat_of_ascii c in
  ((9 <=? n)%nat && (n <=? 13)%nat) || (n =? 32)%nat.

Fixpoint trim_left (s : string) : string :=
  match s with
  | String c t => if is_space c then trim_left t else s
  | EmptyString => EmptyString
  end.

Fixpoint trim_right (s : string) : string :=
  match s with
  | EmptyString => EmptyString
  | String c t =>
      match trim_right t with
      | EmptyString => if is_space c then EmptyString else String c EmptyString
      | t' => String c t'
      end
  end.

(** [s.trim()] on 7-bit text. *)
Definition trim (s : string) : string := trim_right (trim_left s).

(** ** JSON *)

Definition quote_char : ascii := "034"%char.
Definition backslash : ascii := "092"%char.

Definition hex_digit (n : nat) : ascii :=
  ascii_of_nat (if (n <? 10)%nat then 48 + n else 87 + n).

(** A string as [JSON.stringify] writes it. *)
Fixpoint escape (s : string) : string :=
  match s with
  | EmptyString => EmptyString
  | String c t =>
      let n := nat_of_ascii c in
      (if Ascii.eqb c quote_char then String backslash (String quote_char EmptyString)
       else if Ascii.eqb c backslash then String backslash (String backslash EmptyString)
       else if (n =? 8)%nat then String backslash "b"
       else if (n =? 9)%nat then String backslash "t"
       else if (n =? 10)%nat then String backslash "n"
       else if (n =? 12)%nat then String backslash "f"
       else if (n =? 13)%nat then String backslash "r"
       else if (n <? 32)%nat
            then String backslash
                   (String "u" (String "0" (String "0"
                      (String (hex_digit (n / 16)) (String (hex_digit (n mod 16)) EmptyString)))))
       else String c EmptyString) +:+ escape t
  end.

Definition quoted (s : string) : string :=
  String quote_char (escape s +:+ String quote_char EmptyString).

(** The text [JSON.stringify(v)] produces; [None] where it produces
    [undefined]. *)
Fixpoint stringify_text (v : value) : option string :=
  match v with
  | VUndefined => None
  | VNull => Some "null"
  | VBool true => Some "true"
  | VBool false => Some "false"
  | VNum n => Some (pretty n)
  | VStr s => Some (quoted s)
  | VArr items =>
      Some ("[" +:+ join "," (List.map (fun x => match stringify_text x with
                                                  | Some t => t
                                                  | None => "null"
                                                  end) items) +:+ "]")
  | VObj props =>
      Some ("{" +:+ join "," (List.flat_map
                                (fun kx => match kx with
                                           | (k, x) =>
                                               match stringify_text x with
                                               | Some t => [quoted k +:+ ":" +:+ t]
                                               | None => []
                                               end
                                           end) props) +:+ "}")
  | VBlob _ => Some "{}"
  | VFormData _ => Some "{}"
  end.

Definition JSON_stringify (v : value) : value :=
  match stringify_text v with
  | Some t => VStr t
  | None => VUndefined
  end.

Definition is_json_space (c : ascii) : bool :=
  let n := nat_of_ascii c in
  (n =? 32)%nat || (n =? 9)%nat || (n =? 10)%nat || (n =? 13)%nat.

Fixpoint skip_spaces (s : string) : string :=
  match s with
  | String c t => if is_json_space c then skip_spaces t else s
  | EmptyString => EmptyString
  end.

Definition is_digit (c : ascii) : bool :=
  (48 <=? nat_of_ascii c)%nat && (nat_of_ascii c <=? 57)%nat.

Fixpoint read_digits (acc : Z) (s : string) : Z * string :=
  match s with
  | String c t =>
      if is_digit c then read_digits (10 * acc + (Z.of_nat (nat_of_ascii c) - 48)) t
      else (acc, s)
  | EmptyString => (acc, s)
  end.

(** A number token.  Integers only: a literal with a fraction or an
    exponent is outside this model and is refused like a malformed one. *)
Definition read_number (s : string) : option (value * string) :=
  let '(negative, body) :=
    match s with
    | String "-"%char t => (true, t)
    | _ => (false, s)
    end in
  match body with
  | String c t =>
      if is_digit c then
        let '(n, rest) := if Ascii.eqb c "0" then (0, t) else read_digits 0 body in
        match rest with
        | String "."%char _ | String "e"%char _ | String "E"%char _ => None
        | _ => Some (VNum (if negative then - n else n), rest)
        end
      else None
  | EmptyString => None
  end.

Definition hex_value (c : ascii) : option nat :=
  let n := nat_of_ascii c in
  if (48 <=? n)%nat && (n <=? 57)%nat then Some (n - 48)%nat
  else if (97 <=? n)%nat && (n <=? 102)%nat then Some (n - 87)%nat
  else if (65 <=? n)%nat && (n <=? 70)%nat then Some (n - 55)%nat
  else None.

(** The UTF-8 bytes of a code point below 65536 (strings are byte
    strings; the two halves of a surrogate pair are encoded one by one). *)
Definition utf8 (cp : nat) : string :=
  if (cp <? 128)%nat then String (ascii_of_nat cp) EmptyString
  else if (cp <? 2048)%nat then
    String (ascii_of_nat (192 + cp / 64))
      (String (ascii_of_nat (128 + cp mod 64)) EmptyString)
  else
    String (ascii_of_nat (224 + cp / 4096))
      (String (ascii_of_nat (128 + (cp / 64) mod 64))
         (String (ascii_of_nat (128 + cp mod 64)) EmptyString)).

(** The rest of a string token, after its opening quote. *)
Fixpoint read_string (s : string) : option (string * string) :=
  match s with
  | EmptyString => None
  | String c t =>
      if Ascii.eqb c quote_char then Some (EmptyString, t)
      else if Ascii.eqb c backslash then
        match t with
        | String "u"%char (String h1 (String h2 (String h3 (String h4 t')))) =>
            match hex_value h1, hex_value h2, hex_value h3, hex_value h4 with
            | Some a, Some b, Some c', Some d =>
                match read_string t' with
                | Some (body, rest) =>
                    Some (utf8 (((a * 16 + b) * 16 + c') * 16 + d) +:+ body, rest)
                | None => None
                end
            | _, _, _, _ => None
            end
        | String e t' =>
            let plain (x : ascii) :=
              match read_string t' with
              | Some (body, rest) => Some (String x body, rest)
              | None => None
              end in
            if Ascii.eqb e quote_char then plain quote_char
            else if Ascii.eqb e backslash then plain backslash
            else if Ascii.eqb e "/" then plain "/"%char
            else if Ascii.eqb e "b" then plain "008"%char
            else if Ascii.eqb e "f" then plain "012"%char
            else if Ascii.eqb e "n" then plain "010"%char
            else if Ascii.eqb e "r" then plain "013"%char
            else if Ascii.eqb e "t" then plain "009"%char
            else None
        | EmptyString => None
        end
      else if (nat_of_ascii c <? 32)%nat then None
      else
        match read_string t with
        | Some (body, rest) => Some (String c body, rest)
        | None => None
        end
  end.

Definition read_literal (word : string) (v : value) (s : string)
  : option (value * string) :=
  if String.prefix word s
  then Some (v, String.substring (String.length word)
                                 (String.length s - String.length word) s)
  else None.

(** One JSON value at the head of [s], and the text after it.  The fuel
    bounds the number of values, members and elements read. *)
Fixpoint read_value (fuel : nat) (s : string) : option (value * string) :=
  match fuel with
  | O => None
  | S fuel =>
      match skip_spaces s with
      | String "{"%char t =>
          match skip_spaces t with
          | String "}"%char rest => Some (VObj [], rest)
          | _ => read_members fuel [] t
          end
      | String "["%char t =>
          match skip_spaces t with
          | String "]"%char rest => Some (VArr [], rest)
          | _ => read_elements fuel [] t
          end
      | String "t"%char _ as s' => read_literal "true" (VBool true) s'
      | String "f"%char _ as s' => read_literal "false" (VBool false) s'
      | String "n"%char _ as s' => read_literal "null" VNull s'
      | String c t as s' =>
          if Ascii.eqb c quote_char then
            match read_string t with
            | Some (body, rest) => Some (VStr body, rest)
            | None => None
            end
          else read_number s'
      | EmptyString => None
      end
  end

with read_members (fuel : nat) (acc : list (string * value)) (s : string)
  : option (value * string) :=
  match fuel with
  | O => None
  | S fuel =>
      match skip_spaces s with
      | String c t =>
          if Ascii.eqb c quote_char then
            match read_string t with
            | Some (key, after_key) =>
                match skip_spaces after_key with
                | String ":"%char after_colon =>
                    match read_value fuel after_colon with
                    | Some (v, after_value) =>
                        match skip_spaces after_value with
                        | String ","%char more =>
                            read_members fuel (set_prop key v acc) more
                        | String "}"%char rest => Some (VObj (set_prop key v acc), rest)
                        | _ => None
                        end
                    | None => None
                    end
                | _ => None
                end
            | None => None
            end
          else None
      | EmptyString => None
      end
  end

with read_elements (fuel : nat) (acc : list value) (s : string)
  : option (value * string) :=
  match fuel with
  | O => None
  | S fuel =>
      match read_value fuel s with
      | Some (v, after_value) =>
          match skip_spaces after_value with
          | String ","%char more => read_elements fuel (acc ++ [v]) more
          | String "]"%char rest => Some (VArr (acc ++ [v]), rest)
          | _ => None
          end
      | None => None
      end
  end.

(** [JSON.parse] on a text: [None] stands for its [SyntaxError]. *)
Definition parse_text (s : string) : option value :=
  match read_value (2 * String.length s + 2) s with
  | Some (v, rest) =>
      match skip_spaces rest with
      | EmptyString => Some v
      | _ => None
      end
  | None => None
  end.

(** [{...props, ...x}]: the own enumerable properties of [x] written over
    [props]. *)
Definition spread (x : value) (props : list (string * value)) : list (string * value) :=
  match x with
  | VObj ps => fold_left (fun acc kv => set_prop (fst kv) (snd kv) acc) ps props
  | VArr items =>
      fold_left (fun acc iv => set_prop (pretty (Z.of_nat (fst iv))) (snd iv) acc)
                (combine (seq 0 (List.length items)) items) props
  | VStr s =>
      fold_left (fun acc ic =>
                   set_prop (pretty (Z.of_nat (fst ic)))
                            (VStr (String (snd ic) EmptyString)) acc)
                (combine (seq 0 (String.length s)) (list_ascii_of_string s)) props
  | _ => props
  end.

(** ** The world the client runs in *)

(** One call [axios[method](...args)]. *)
Record call : Type := Call { call_method : string; call_args : list value }.

(** How a promise ends. *)
Inductive settlement : Type :=
| Resolved (v : value)
| Rejected (e : value)
| Pending.

(** A console line, kept as the arguments of the helper that printed it:
    [log(method, ...messages)], [error(method, ...messages)], or a bare
    [console.log(text)].  The [%c] styling around the first two carries no
    information of its own. *)
Inductive console_line : Type :=
| LogLine (method : value) (messages : list value)
| ErrorLine (method : value) (messages : list value)
| PlainLine (text : string).

(** Modelled from the spec: the process-wide event notifier imported from
    [./eventHandler] is not among the sources.  The specification gives it
    as a global listener list to which failures are broadcast;
    [eventHandler.emit(name, {method, messages})] is kept as one
    notification appended to the list of broadcasts. *)
Record notification : Type :=
  Emit { event_name : string; event_method : value; event_messages : list value }.

(** Persisted storage with the keys read from it so far, the console, the
    notifications broadcast, and the HTTP calls made. *)
Record World : Type := MkWorld {
  localStorage : gmap string string;
  reads : list string;
  console : list console_line;
  broadcasts : list notification;
  network : list call
}.

Definition stored (k s : string) (w : World) : World :=
  MkWorld (<[k := s]> (localStorage w)) (reads w) (console w) (broadcasts w) (network w).

Definition looked_up (k : string) (w : World) : World :=
  MkWorld (localStorage w) (reads w ++ [k]) (console w) (broadcasts w) (network w).

Definition printed (line : console_line) (w : World) : World :=
  MkWorld (localStorage w) (reads w) (console w ++ [line]) (broadcasts w) (network w).

Definition broadcast (n : notification) (w : World) : World :=
  MkWorld (localStorage w) (reads w) (console w) (broadcasts w ++ [n]) (network w).

Definition sent (c : call) (w : World) : World :=
  MkWorld (localStorage w) (reads w) (console w) (broadcasts w) (network w ++ [c]).

(** ** Evaluation with effects, exceptions and awaits *)

Inductive completion (A : Type) : Type :=
| Normal (a : A)
| Throw (e : value)
| Hang.
Arguments Normal {A} a.
Arguments Throw {A} e.
Arguments Hang {A}.

Definition M (A : Type) : Type := World -> completion A * World.

Definition ret {A} (a : A) : M A := fun w => (Normal a, w).

Definition bind {A B} (m : M A) (k : A -> M B) : M B :=
  fun w =>
    match m w with
    | (Normal a, w') => k a w'
    | (Throw e, w') => (Throw e, w')
    | (Hang, w') => (Hang, w')
    end.

Definition throw {A} (e : value) : M A := fun w => (Throw e, w).

Notation "x <- m ;; k" := (bind m (fun x => k))
  (at level 100, m at next level, right associativity).
Notation "m ;;; k" := (bind m (fun _ => k))
  (at level 100, right associativity).

(** [promise.catch(handler)], awaited: a rejection runs the handler. *)
Definition catch (m : M value) (handler : value -> M value) : M value :=
  fun w =>
    match m w with
    | (Throw e, w') => handler e w'
    | r => r
    end.

(** [await] on a promise that has settled (or never will). *)
Definition await (p : settlement) : M value :=
  fun w =>
    match p with
    | Resolved v => (Normal v, w)
    | Rejected e => (Throw e, w)
    | Pending => (Hang, w)
    end.

(** How the promise of an async function ends. *)
Definition settle (r : completion value) : settlement :=
  match r with
  | Normal v => Resolved v
  | Throw e => Rejected e
  | Hang => Pending
  end.

(** The errors the runtime itself throws. *)
Definition TypeError (message : string) : value :=
  VObj [("name", VStr "TypeError"); ("message", VStr message)].

Definition SyntaxError (message : string) : value :=
  VObj [("name", VStr "SyntaxError"); ("message", VStr message)].

(** [v.k], throwing on [undefined] and [null]. *)
Definition member (v : value) (k : string) : M value :=
  match prop v k with
  | Some x => ret x
  | None => throw (TypeError ("Cannot read properties of " +:+ ToString v))
  end.

(** [v.toLowerCase()] and [v.trim()]: string methods, missing elsewhere. *)
Definition call_toLowerCase (v : value) : M value :=
  match v with
  | VStr s => ret (VStr (toLowerCase s))
  | _ => throw (TypeError "toLowerCase is not a function")
  end.

Definition call_trim (v : value) : M value :=
  match v with
  | VStr s => ret (VStr (trim s))
  | _ => throw (TypeError "trim is not a function")
  end.

(** [JSON.parse(v)]: the argument is read as a string first. *)
Definition JSON_parse (v : value) : M value :=
  match parse_text (ToString v) with
  | Some x => ret x
  | None => throw (SyntaxError "Unexpected token in JSON")
  end.

Definition console_log (line : console_line) : M value :=
  fun w => (Normal VUndefined, printed line w).

Definition eventHandler_emit (name : string) (method : value) (messages : list value)
  : M value :=
  fun w => (Normal VUndefined, broadcast (Emit name method messages) w).

(** [localStorage.getItem(k)]: the stored string, or [null]. *)
Definition localStorage_getItem (k : string) : M value :=
  fun w => (Normal (match localStorage w !! k with
                    | Some s => VStr s
                    | None => VNull
                    end), looked_up k w).

(** [localStorage.setItem(k, v)]: storage holds strings. *)
Definition localStorage_setItem (k : string) (v : value) : M value :=
  fun w => (Normal VUndefined, stored k (ToString v) w).

(** [formData.append(name, v)]: a [Blob] goes in as it is, any other value
    as text. *)
Definition FormData_append (name : string) (v : value) (entries : list (string * value))
  : list (string * value) :=
  entries ++ [(name, match v with
                     | VBlob _ => v
                     | _ => VStr (ToString v)
                     end)].

(** The HTTP verbs the client dispatches, under the names the code uses:
    the five method names the resource calls pass to [request].  The
    source takes the name as a string; with a name axios does not provide,
    [axios[method]] is not a function and the call throws a [TypeError]
    before any request is made.  That path lies outside this type. *)
Inductive verb : Type := GET | DELETE | POST | PUT | PATCH.

Definition verb_name (m : verb) : string :=
  match m with
  | GET => "get"
  | DELETE => "delete"
  | POST => "post"
  | PUT => "put"
  | PATCH => "patch"
  end.

(** ** [class API] *)

Module API.
Section WithClient.

(** The HTTP client library: how the promise of each call ends, given the
    calls made before it. *)
Variable axios : list call -> call -> settlement.

(** [await axios[name](...args)] *)
Definition axios_call (name : string) (args : list value) : M value :=
  fun w => await (axios (network w) (Call name args)) (sent (Call name args) w).

Definition ROOT_PATH : string := "https://backend.xornet.cloud".

Definition log (method : value) (messages : list value) : M value :=
  console_log (LogLine method messages).

Definition error (method : value) (messages : list value) : M value :=
  eventHandler_emit "error" method messages ;;;
  console_log (ErrorLine method messages).

Definition logResponse (method response : value) : M value :=
  if negb (truthy response) then ret VUndefined else
  data <- member response "data" ;;
  if truthy (opt_prop data "message") then log method [opt_prop data "message"]
  else if truthy (opt_prop response "data") then log method [opt_prop response "data"]
  else log method [response].

Definition logError (method response : value) : M value :=
  if negb (truthy response) then ret VUndefined else
  data <- member response "data" ;;
  if truthy (opt_prop data "message") then error method [opt_prop data "message"]
  else if truthy (opt_prop response "data") then error method [opt_prop response "data"]
  else error method [response].

Definition constructEndpoint (route : string) : string :=
  ROOT_PATH +:+ "/" +:+ route.

Definition getGeolocation : M value :=
  reply <- axios_call "get" [VStr "https://ipwhois.app/json/"] ;;
  location <- member reply "data" ;;
  country <- member location "country" ;;
  country_code <- member location "country_code" ;;
  isp <- member location "isp" ;;
  ret (VObj [("location", country); ("countryCode", country_code); ("isp", isp)]).

(** [{ withCredentials: true, headers }] *)
Definition credentials (headers : value) : value :=
  VObj [("withCredentials", VBool true); ("headers", headers)].

Definition request (method : verb) (route : string) (headers body : value) : M value :=
  let name := VStr (toUpperCase (verb_name method) +:+ " " +:+ route) in
  response <-
    (if String.eqb (verb_name method) "get" || String.eqb (verb_name method) "delete"
     then
       catch (axios_call (verb_name method)
                [VStr (constructEndpoint route); or_else body (credentials headers)])
             (fun error => logError name error)
     else
       catch (axios_call (verb_name method)
                [VStr (constructEndpoint route); or_else body VUndefined;
                 credentials headers])
             (fun error => logError name error)) ;;
  logResponse name response ;;;
  ret response.

End WithClient.
End API.

Definition json_content : value := VObj [("Content-Type", VStr "application/json")].
Definition multipart_content : value := VObj [("Content-Type", VStr "multipart/form-data")].

(** ** [class Datacenter extends API] *)

Module Datacenter.
Section WithClient.

Variable axios : list call -> call -> settlement.

Definition fetchAll : M value :=
  response <- API.request axios GET "datacenter/all" VUndefined VUndefined ;;
  member response "data".

Definition fetchMachineCount (datacenter : value) : M value :=
  if truthy datacenter then
    response <- API.request axios GET
                  ("datacenter/" +:+ ToString datacenter +:+ "/machine/count")
                  VUndefined VUndefined ;;
    member response "data"
  else ret VUndefined.

Definition fetch (datacenter : value) : M value :=
  response <- API.request axios GET ("datacenter/" +:+ ToString datacenter)
                VUndefined VUndefined ;;
  member response "data".

Definition revokeMember (datacenter user : value) : M value :=
  lower <- call_toLowerCase user ;;
  response <- API.request axios DELETE
                ("datacenter/" +:+ ToString datacenter +:+ "/user/" +:+ ToString lower)
                VUndefined VUndefined ;;
  member response "data".

Definition addMember (datacenter user : value) : M value :=
  lower <- call_toLowerCase user ;;
  response <- API.request axios PUT
                ("datacenter/" +:+ ToString datacenter +:+ "/user/" +:+ ToString lower)
                VUndefined VUndefined ;;
  member response "data".

Definition addMachine (datacenter machine : value) : M value :=
  lower <- call_toLowerCase machine ;;
  response <- API.request axios PUT
                ("datacenter/" +:+ ToString datacenter +:+ "/machine/" +:+ ToString lower)
                VUndefined VUndefined ;;
  member response "data".

Definition add (form : value) : M value :=
  API.request axios POST "datacenter/new" json_content form.

Definition save (datacenter logo banner : value) : M value :=
  let formData :=
    VFormData (FormData_append "banner" banner (FormData_append "logo" logo [])) in
  datacenter <- call_trim datacenter ;;
  API.request axios PATCH ("datacenter/" +:+ ToString datacenter)
              multipart_content formData.

End WithClient.
End Datacenter.

(** ** [class User extends API] *)

Module User.
Section WithClient.

Variable axios : list call -> call -> settlement.

(** The [try] block of [login]; its value is what [resolve] receives. *)
Definition login_try (json : value) : M value :=
  geolocation <- API.getGeolocation axios ;;
  credentials <- JSON_parse json ;;
  let loginForm := VObj (spread credentials [("geolocation", geolocation)]) in
  response <- API.request axios POST "login" json_content loginForm ;;
  data <- member response "data" ;;
  token <- member data "token" ;;
  localStorage_setItem "token" token ;;;
  username <- member loginForm "username" ;;
  localStorage_setItem "username" username ;;;
  data <- member response "data" ;;
  me <- member data "me" ;;
  localStorage_setItem "me" (JSON_stringify me) ;;;
  API.log (VStr "Logged in successfully") [] ;;;
  member response "status".

(** The [catch] block of [login]; its value is what [reject] receives. *)
Definition login_catch (error : value) : M value :=
  API.log error [] ;;;
  member error "status".

(** [login] returns [new Promise(async (resolve, reject) => ...)].  The
    promise resolves from the [try] block and rejects from the [catch]
    block; an exception escaping the [catch] block is lost with the
    executor's own promise and leaves the returned one unsettled. *)
Definition login (json : value) (w : World) : settlement * World :=
  match login_try json w with
  | (Normal status, w') => (Resolved status, w')
  | (Throw error, w') =>
      match login_catch error w' with
      | (Normal status, w'') => (Rejected status, w'')
      | (Throw _, w'') => (Pending, w'')
      | (Hang, w'') => (Pending, w'')
      end
  | (Hang, w') => (Pending, w')
  end.

Definition signup (json : value) : M value :=
  geolocation <- API.getGeolocation axios ;;
  let signupForm := VObj (spread json [("geolocation", geolocation)]) in
  API.request axios POST "signup" json_content signupForm.

Definition fetchProfile (username : value) : M value :=
  response <- API.request axios GET ("profile/" +:+ ToString username)
                VUndefined VUndefined ;;
  member response "data".

Definition fetchMe : M value :=
  username <- localStorage_getItem "username" ;;
  response <- API.request axios GET ("profile/" +:+ ToString username)
                VUndefined VUndefined ;;
  member response "data".

Definition fetchLogs (machineUUID : value) : M value :=
  if truthy machineUUID then
    response <- API.request axios GET ("logs/" +:+ ToString machineUUID)
                  VUndefined VUndefined ;;
    member response "data"
  else
    response <- API.request axios GET "logs" VUndefined VUndefined ;;
    member response "data".

Definition save (profile profileImage profileBanner : value) : M value :=
  bio <- member profile "bio" ;;
  socials <- member profile "socials" ;;
  badges <- member profile "badges" ;;
  email <- member profile "email" ;;
  let formData :=
    VFormData
      (FormData_append "banner" profileBanner
         (FormData_append "image" profileImage
            (FormData_append "json"
               (JSON_stringify (VObj [("bio", bio); ("socials", socials);
                                      ("badges", badges); ("email", email)]))
               []))) in
  response <- API.request axios PATCH "profile" multipart_content formData ;;
  member response "data".

Definition addMachine (machineUUID : value) : M value :=
  response <- API.request axios PUT "profile/machine" json_content
                (VObj [("machine", machineUUID)]) ;;
  member response "data".

Definition search (user : value) : M value :=
  response <- API.request axios GET ("/search/user/" +:+ ToString user)
                VUndefined VUndefined ;;
  member response "data".

End WithClient.
End User.

(** ** [class Machine extends API] *)

Module Machine.
Section WithClient.

Variable axios : list call -> call -> settlement.

Definition getNetwork (machineUUID : value) : M value :=
  response <- API.request axios GET ("stats/network/" +:+ ToString machineUUID)
                VUndefined VUndefined ;;
  member response "data".

Definition getMachineSpecs (machineUUID : value) : M value :=
  response <- API.request axios GET ("stats/machine/" +:+ ToString machineUUID)
                VUndefined VUndefined ;;
  member response "data".

Definition getProcesses (machineUUID : value) : M value :=
  response <- API.request axios GET ("stats/processes/" +:+ ToString machineUUID)
                VUndefined VUndefined ;;
  member response "data".

End WithClient.
End Machine.

(** ** [services/socket.js] *)

(** A socket.io client socket: where it connects, the options it was built
    with, and the listeners attached to it. *)
Record Socket : Type := MkSocket {
  uri : string;
  opts : value;
  listeners : list (string * M value)
}.

(** [io(uri, opts)] *)
Definition io (uri : string) (opts : value) : Socket := MkSocket uri opts [].

(** [socket.on(event, listener)] *)
Definition on (event : string) (listener : M value) (s : Socket) : Socket :=
  MkSocket (uri s) (opts s) (listeners s ++ [(event, listener)]).

(** Loading the module: the socket it exports. *)
Definition socket : M Socket :=
  token <- localStorage_getItem "token" ;;
  let socket := io "wss://backend.xornet.cloud"
                   (VObj [("reconnect", VBool true);
                          ("auth", VObj [("type", VStr "client"); ("token", token)])]) in
  let socket := on "connect" (console_log (PlainLine "[Socket] Connected")) socket in
  let socket := on "disconnect" (console_log (PlainLine "[Socket] Disconnected")) socket in
  ret socket.

(** The library side of the channel.  On every connection, the first and
    each reconnection alike, the socket presents the [auth] object of its
    options to the backend. *)
Definition handshake (s : Socket) : value := opt_prop (opts s) "auth".

(** The library firing [event]: the listeners attached for it run in the
    order they were attached. *)
Fixpoint run_listeners (event : string) (ls : list (string * M value)) (w : World)
  : World :=
  match ls with
  | [] => w
  | (name, listener) :: rest =>
      run_listeners event rest
        (if String.eqb name event then snd (listener w) else w)
  end.

Definition fire (s : Socket) (event : string) (w : World) : World :=
  run_listeners event (listeners s) w.

(** What can happen while the channel lives: the transport connects
    (again), it disconnects, or some code writes persisted storage, as
    [login] does with a fresh token. *)
Inductive happening : Type :=
| Connects
| Disconnects
| Writes (k : string) (v : value).

(** The channel's life: the payloads presented to the backend so far, and
    the world. *)
Fixpoint live (s : Socket) (hs : list happening) (presented : list value) (w : World)
  : list value * World :=
  match hs with
  | [] => (presented, w)
  | Connects :: rest => live s rest (presented ++ [handshake s]) (fire s "connect" w)
  | Disconnects :: rest => live s rest presented (fire s "disconnect" w)
  | Writes k v :: rest => live s rest presented (snd (localStorage_setItem k v w))
  end.

(** ** Vocabulary of the statements *)

(** The arguments [request] hands to [axios[method]]. *)
Definition request_args (method : verb) (route : string) (headers body : value)
  : list value :=
  match method with
  | GET | DELETE =>
      [VStr (API.constructEndpoint route); or_else body (API.credentials headers)]
  | _ =>
      [VStr (API.constructEndpoint route); or_else body VUndefined;
       API.credentials headers]
  end.

Definition request_call (method : verb) (route : string) (headers body : value) : call :=
  Call (verb_name method) (request_args method route headers body).

(** The method name under which [request] logs and broadcasts. *)
Definition request_name (method : verb) (route : string) : value :=
  VStr (toUpperCase (verb_name method) +:+ " " +:+ route).

(** The one message [logResponse] and [logError] pass on for a truthy
    response: [response.data.message], else [response.data], else the
    response itself. *)
Definition reported (response : value) : value :=
  if truthy (opt_prop (opt_prop response "data") "message")
  then opt_prop (opt_prop response "data") "message"
  else if truthy (opt_prop response "data") then opt_prop response "data"
  else response.

(** The lookup call of [getGeolocation]. *)
Definition geolocation_call : call := Call "get" [VStr "https://ipwhois.app/json/"].

(** The token as [getItem] finds it in storage. *)
Definition token_in (w : World) : value :=
  match localStorage w !! "token" with
  | Some s => VStr s
  | None => VNull
  end.

(** The world after [request]: the call has gone out, a truthy response
    is logged, a truthy rejection value is broadcast and logged. *)
Definition after_request (p : settlement) (name : value) (c : call) (w : World) : World :=
  match p with
  | Resolved r =>
      if truthy r then printed (LogLine name [reported r]) (sent c w) else sent c w
  | Rejected e =>
      if truthy e
      then printed (ErrorLine name [reported e])
             (broadcast (Emit "error" name [reported e]) (sent c w))
      else sent c w
  | Pending => sent c w
  end.

(** What [request] evaluates to: the response, [undefined] after a
    failure, or nothing at all when the call never settles. *)
Definition request_completion (p : settlement) : completion value :=
  match p with
  | Resolved r => Normal r
  | Rejected _ => Normal VUndefined
  | Pending => Hang
  end.

(** A world in which nothing has happened yet. *)
Definition fresh : World := MkWorld empty [] [] [] [].

(** A transport failure as axios reports it, and a backend that is down. *)
Definition network_error : value :=
  VObj [("name", VStr "AxiosError"); ("message", VStr "Network Error")].

Definition offline : list call -> call -> settlement :=
  fun _ _ => Rejected network_error.

(** A failure that carries a payload of its own under [data]. *)
Definition refusal : value :=
  VObj [("data", VObj [("message", VStr "Invalid credentials")])].

Definition refusing : list call -> call -> settlement :=
  fun _ _ => Rejected refusal.

(** [undefined] and [null], the two values without properties. *)
Definition nullish (v : value) : bool :=
  match v with
  | VUndefined | VNull => true
  | _ => false
  end.

(** The geolocation [getGeolocation] makes of the lookup's reply. *)
Definition geolocation_of (reply : value) : value :=
  VObj [("location", opt_prop (opt_prop reply "data") "country");
        ("countryCode", opt_prop (opt_prop reply "data") "country_code");
        ("isp", opt_prop (opt_prop reply "data") "isp")].

(** The JSON text of the credentials [{username: a, password: b}]. *)
Definition credentials_text : string :=
  "{" +:+ quoted "username" +:+ ":" +:+ quoted "a" +:+ ","
      +:+ quoted "password" +:+ ":" +:+ quoted "b" +:+ "}".

(** The same credentials as an object. *)
Definition credentials_object : value :=
  VObj [("username", VStr "a"); ("password", VStr "b")].

(** The form [login] and [signup] submit for those credentials. *)
Definition credentials_form (reply : value) : value :=
  VObj [("geolocation", geolocation_of reply);
        ("username", VStr "a"); ("password", VStr "b")].

(** A reply of the IP lookup service. *)
Definition whois_reply : value :=
  VObj [("status", VNum 200);
        ("data", VObj [("country", VStr "Finland"); ("country_code", VStr "FI");
                       ("isp", VStr "Elisa")])].

(** A backend that lets everybody in: any call but the lookup is answered
    with status 200, a token and a profile. *)
Definition welcome : value :=
  VObj [("status", VNum 200);
        ("data", VObj [("token", VStr "T");
                       ("me", VObj [("username", VStr "a"); ("points", VNum 3)])])].

Definition is_lookup (c : call) : bool :=
  match c with
  | Call name [VStr url] =>
      String.eqb name "get" && String.eqb url "https://ipwhois.app/json/"
  | _ => false
  end.

Definition welcoming : list call -> call -> settlement :=
  fun _ c => if is_lookup c then Resolved whois_reply else Resolved welcome.

(** A backend that turns the login down with status 401; the lookup
    service works. *)
Definition unauthorized : value :=
  VObj [("status", VNum 401);
        ("response", VObj [("status", VNum 401);
                           ("data", VObj [("message", VStr "Invalid credentials")])])].

Definition rejecting : list call -> call -> settlement :=
  fun _ c => if is_lookup c then Resolved whois_reply else Rejected unauthorized.

(** A mocked client that answers every call with the same response. *)
Definition answering (r : value) : list call -> call -> settlement :=
  fun _ _ => Resolved r.

(** The resource calls written as [(await super.request(...)).data], with
    the arguments they take. *)
Inductive unwrapping_call : Type :=
| DatacenterFetchAll
| DatacenterFetchMachineCount (datacenter : value)
| DatacenterFetch (datacenter : value)
| DatacenterRevokeMember (datacenter : value) (user : string)
| DatacenterAddMember (datacenter : value) (user : string)
| DatacenterAddMachine (datacenter : value) (machine : string)
| UserFetchProfile (username : value)
| UserFetchMe
| UserFetchLogs (machineUUID : value)
| UserSave (profile profileImage profileBanner : value)
| UserAddMachine (machineUUID : value)
| UserSearch (user : value)
| MachineGetNetwork (machineUUID : value)
| MachineGetMachineSpecs (machineUUID : value)
| MachineGetProcesses (machineUUID : value).

Definition perform (axios : list call -> call -> settlement) (c : unwrapping_call)
  : M value :=
  match c with
  | DatacenterFetchAll => Datacenter.fetchAll axios
  | DatacenterFetchMachineCount d => Datacenter.fetchMachineCount axios d
  | DatacenterFetch d => Datacenter.fetch axios d
  | DatacenterRevokeMember d u => Datacenter.revokeMember axios d (VStr u)
  | DatacenterAddMember d u => Datacenter.addMember axios d (VStr u)
  | DatacenterAddMachine d m => Datacenter.addMachine axios d (VStr m)
  | UserFetchProfile u => User.fetchProfile axios u
  | UserFetchMe => User.fetchMe axios
  | UserFetchLogs m => User.fetchLogs axios m
  | UserSave p i b => User.save axios p i b
  | UserAddMachine m => User.addMachine axios m
  | UserSearch u => User.search axios u
  | MachineGetNetwork m => Machine.getNetwork axios m
  | MachineGetMachineSpecs m => Machine.getMachineSpecs axios m
  | MachineGetProcesses m => Machine.getProcesses axios m
  end.

(** The arguments with which such a call reaches its request:
    [fetchMachineCount] wants a truthy datacenter, [save] a profile to
    take apart. *)
Definition reaches_request (c : unwrapping_call) : bool :=
  match c with
  | DatacenterFetchMachineCount d => truthy d
  | UserSave p _ _ => negb (nullish p)
  | _ => true
  end.

(** How often the transport connected. *)
Fixpoint connections (hs : list happening) : nat :=
  match hs with
  | [] => O
  | Connects :: rest => S (connections rest)
  | _ :: rest => connections rest
  end.

(** A session in which the user logs in between two connections. *)
Definition relogin : list happening :=
  [Connects; Writes "token" (VStr "T"); Disconnects; Connects].

(** ** The dark-mode toggle *)

Definition darkStyle : list (string * value) :=
  [("--background-color", VStr "var(--darkmode-background-color)");
   ("--white", VStr "var(--darkmode-white)");
   ("--black", VStr "var(--darkmode-black)");
   ("--slyColor", VStr "var(--darkmode-slyColor)");
   ("--rogue-red", VStr "var(--darkmode-rogue-red)");
   ("--rogue-red-active", VStr "var(--darkmode-rogue-red-active)");
   ("--filter", VNum 1)].

Definition lightStyle : list (string * value) :=
  [("--background-color", VStr "#fff");
   ("--white", VStr "#f6f6f6");
   ("--black", VStr "#000");
   ("--slyColor", VStr "#414569");
   ("--rogue-red", VStr "#ffeef0");
   ("--rogue-red-active", VStr "#fdaeb7");
   ("--filter", VNum 0)].

(** The page the toggle acts on: the world, the inline style of the
    document root, and the flag held by the [isDark] ref. *)
Record Page : Type := MkPage {
  page_world : World;
  root_style : gmap string string;
  isDark : bool
}.

(** [style.setProperty(prop, value)]: the value is written as a string; an
    empty one removes the property. *)
Definition setProperty (prop : string) (v : value) (style : gmap string string)
  : gmap string string :=
  if String.eqb (ToString v) "" then delete prop style
  else <[prop := ToString v]> style.

(** The callback handed to [watch(isDark, ...)]. *)
Definition theme_watcher (p : Page) : Page :=
  let newStyle := if isDark p then darkStyle else lightStyle in
  MkPage (snd (localStorage_setItem "dark" (VBool (isDark p)) (page_world p)))
         (fold_left (fun style entry => setProperty (fst entry) (snd entry) style)
                    newStyle (root_style p))
         (isDark p).

(** [isDark.value = b], with the watcher flushed after it: the callback
    runs when the flag has changed, and only then. *)
Definition set_isDark (b : bool) (p : Page) : Page :=
  if Bool.eqb b (isDark p) then p
  else theme_watcher (MkPage (page_world p) (root_style p) b).

(** [v === "true"] *)
Definition is_true_text (v : value) : bool :=
  match v with
  | VStr s => String.eqb s "true"
  | _ => false
  end.

(** Loading the module: the ref starts as [false], the watcher is
    attached, and the flag is set from persisted storage. *)
Definition theme_load (w : World) (style : gmap string string) : Page :=
  let p := MkPage w style false in
  match localStorage_getItem "dark" (page_world p) with
  | (Normal v, w') => set_isDark (is_true_text v) (MkPage w' (root_style p) (isDark p))
  | (_, w') => MkPage w' (root_style p) (isDark p)
  end.

(** ** More vocabulary *)

(** A client whose every call fails with [e]. *)
Definition failing (e : value) : list call -> call -> settlement :=
  fun _ _ => Rejected e.

(** The URL of a call: its first argument. *)
Definition call_url (c : call) : option string :=
  match call_args c with
  | VStr url :: _ => Some url
  | _ => None
  end.

Definition is_search (c : unwrapping_call) : bool :=
  match c with
  | UserSearch _ => true
  | _ => false
  end.

(** The text [getItem] would hand to a template literal: the stored
    string, or the word [null]. *)
Definition stored_text (k : string) (w : World) : string :=
  match localStorage w !! k with
  | Some s => s
  | None => "null"
  end.

(** The options of a request made without headers of the caller's. *)
Definition bare_options : value := API.credentials VUndefined.

(** The console lines the lifecycle events of a session print. *)
Fixpoint lifecycle_lines (hs : list happening) : list console_line :=
  match hs with
  | [] => []
  | Connects :: rest => PlainLine "[Socket] Connected" :: lifecycle_lines rest
  | Disconnects :: rest => PlainLine "[Socket] Disconnected" :: lifecycle_lines rest
  | Writes _ _ :: rest => lifecycle_lines rest
  end.

(** Storage after the writes of a session, in order. *)
Fixpoint written (hs : list happening) (storage : gmap string string)
  : gmap string string :=
  match hs with
  | [] => storage
  | Writes k v :: rest => written rest (<[k := ToString v]> storage)
  | _ :: rest => written rest storage
  end.

(** A lookup service that is down while the backend is up, failing with
    status 503 or with nothing at all. *)
Definition lookup_down : value := VObj [("status", VNum 503)].

Definition without_lookup (e : value) : list call -> call -> settlement :=
  fun _ c => if is_lookup c then Rejected e else Resolved welcome.

(** A backend whose answers carry an empty payload, or none. *)
Definition hollow : value := VObj [("status", VNum 200); ("data", VObj [])].

Definition no_content : value := VObj [("status", VNum 204)].

Definition replying (r : value) : list call -> call -> settlement :=
  fun _ c => if is_lookup c then Resolved whois_reply else Resolved r.

(** * Properties *)

(** ** The runtime at work *)

Example parse_credentials : parse_text credentials_text = Some credentials_object.
Proof. reflexivity. Qed.

Example parse_object_as_text : parse_text (ToString credentials_object) = None.
Proof. reflexivity. Qed.

Example parse_nested :
  parse_text " [1, -20, true, null, [], {}] "
  = Some (VArr [VNum 1; VNum (-20); VBool true; VNull; VArr []; VObj []]).
Proof. reflexivity. Qed.

Example stringify_skips_undefined :
  JSON_stringify (VObj [("bio", VStr "hi"); ("email", VUndefined);
                        ("badges", VArr [VNum 1; VUndefined])])
  = VStr ("{" +:+ quoted "bio" +:+ ":" +:+ quoted "hi" +:+ ","
              +:+ quoted "badges" +:+ ":[1,null]}").
Proof. reflexivity. Qed.

Example array_as_text : ToString (VArr [VNum 1; VNull; VStr "x"]) = "1,,x".
Proof. reflexivity. Qed.

Example spread_overrides :
  spread (VObj [("geolocation", VNull); ("username", VStr "a")])
         [("geolocation", VStr "FI")]
  = [("geolocation", VNull); ("username", VStr "a")].
Proof. reflexivity. Qed.

Example upper_verb : toUpperCase (verb_name DELETE) = "DELETE".
Proof. reflexivity. Qed.

Example search_route_doubles :
  double_slashes (API.constructEndpoint "/search/user/bob") = 2%nat.
Proof. reflexivity. Qed.

(** ** The request dispatcher *)

Lemma truthy_member (v : value) (k : string) :
  truthy v = true -> member v k = ret (opt_prop v k).
Proof.
  unfold member, opt_prop. destruct v; simpl; try discriminate; reflexivity.
Qed.

Lemma logResponse_spec (method response : value) (w : World) :
  API.logResponse method response w =
  (Normal VUndefined,
   if truthy response then printed (LogLine method [reported response]) w else w).
Proof.
  unfold API.logResponse. destruct (truthy response) eqn:T; simpl; [|reflexivity].
  rewrite (truthy_member _ _ T). unfold bind, ret, reported.
  destruct (truthy (opt_prop (opt_prop response "data") "message")); [reflexivity|].
  destruct (truthy (opt_prop response "data")); reflexivity.
Qed.

Lemma logError_spec (method response : value) (w : World) :
  API.logError method response w =
  (Normal VUndefined,
   if truthy response
   then printed (ErrorLine method [reported response])
          (broadcast (Emit "error" method [reported response]) w)
   else w).
Proof.
  unfold API.logError. destruct (truthy response) eqn:T; simpl; [|reflexivity].
  rewrite (truthy_member _ _ T). unfold bind, ret, reported.
  destruct (truthy (opt_prop (opt_prop response "data") "message")); [reflexivity|].
  destruct (truthy (opt_prop response "data")); reflexivity.
Qed.

Section Request.

Variable axios : list call -> call -> settlement.

(** [request] in closed form. *)
Lemma request_spec (method : verb) (route : string) (headers body : value) (w : World) :
  API.request axios method route headers body w =
  (request_completion (axios (network w) (request_call method route headers body)),
   after_request (axios (network w) (request_call method route headers body))
                 (request_name method route)
                 (request_call method route headers body) w).
Proof.
  unfold API.request, request_call, request_name.
  destruct method; simpl;
    unfold bind, catch, API.axios_call, await; simpl;
    match goal with |- context [axios ?n ?c] => destruct (axios n c) end;
    simpl; rewrite ?logError_spec, ?logResponse_spec; simpl;
    try match goal with |- context [truthy ?v] => destruct (truthy v) end;
    reflexivity.
Qed.

Lemma after_request_network (p : settlement) (name : value) (c : call) (w : World) :
  network (after_request p name c w) = network w ++ [c].
Proof.
  destruct p as [r|e|]; simpl; try destruct (truthy _); reflexivity.
Qed.

End Request.

(** C7.  For each of the five verbs and every route, the URL [request]
    targets is the origin, one slash, and the route; the join adds no
    double slash of its own: those of the URL are the one of the origin's
    scheme, those of the route, and one more exactly when the route itself
    begins with a slash. *)
Theorem request_url (axios : list call -> call -> settlement)
    (method : verb) (route : string) (headers body : value) (w : World) :
  (exists others,
     network (snd (API.request axios method route headers body w)) =
     network w ++
       [Call (verb_name method) (VStr (API.ROOT_PATH +:+ "/" +:+ route) :: others)])
  /\ double_slashes (API.ROOT_PATH +:+ "/" +:+ route) =
     (double_slashes API.ROOT_PATH + double_slashes route
      + (if String.prefix "/" route then 1 else 0))%nat.
Proof.
  split.
  - rewrite request_spec. simpl. rewrite after_request_network.
    unfold request_call, request_args, API.constructEndpoint.
    destruct method; eexists; reflexivity.
  - destruct route as [|c t]; [reflexivity|].
    unfold API.ROOT_PATH. cbv [String.append].
    destruct c as [[] [] [] [] [] [] [] []]; cbn; try lia.
    destruct t; cbn; lia.
Qed.

(** C6.  A GET or DELETE issued through [request] without a body passes
    axios the options [{ withCredentials: true, headers }], with the
    caller's headers. *)
Theorem request_default_options (axios : list call -> call -> settlement)
    (method : verb) (route : string) (headers body : value) (w : World) :
  method = GET \/ method = DELETE ->
  truthy body = false ->
  network (snd (API.request axios method route headers body w)) =
  network w ++
    [Call (verb_name method)
          [VStr (API.constructEndpoint route);
           VObj [("withCredentials", VBool true); ("headers", headers)]]].
Proof.
  intros Hm Hb. rewrite request_spec. simpl. rewrite after_request_network.
  unfold request_call, request_args, or_else. rewrite Hb.
  destruct Hm; subst; reflexivity.
Qed.

Lemma request_default_options_witness :
  network (snd (API.request offline DELETE "datacenter/7/user/bob"
                            (VObj [("X-Trace", VStr "1")]) VUndefined fresh)) =
  [Call "delete"
        [VStr "https://backend.xornet.cloud/datacenter/7/user/bob";
         VObj [("withCredentials", VBool true);
               ("headers", VObj [("X-Trace", VStr "1")])]]].
Proof.
  apply (request_default_options offline DELETE "datacenter/7/user/bob"
           (VObj [("X-Trace", VStr "1")]) VUndefined fresh).
  - right. reflexivity.
  - reflexivity.
Defined.




(** C5, as the code has it.  For each verb and route, one [request] call
    adds to the broadcasts: exactly one ["error"] notification when the
    call fails with a truthy rejection value, under the name [VERB route]
    and with the one message [logError] picks ([error.data.message], else
    [error.data], else the error itself); nothing when the call succeeds,
    never settles, or is rejected with a falsy value. *)
Theorem request_broadcasts (axios : list call -> call -> settlement)
    (method : verb) (route : string) (headers body : value) (w : World) :
  broadcasts (snd (API.request axios method route headers body w)) =
  broadcasts w ++
    match axios (network w) (request_call method route headers body) with
    | Rejected e =>
        if truthy e
        then [Emit "error" (request_name method route)
                   [if truthy (opt_prop (opt_prop e "data") "message")
                    then opt_prop (opt_prop e "data") "message"
                    else if truthy (opt_prop e "data") then opt_prop e "data"
                    else e]]
        else []
    | _ => []
    end.
Proof.
  rewrite request_spec. simpl.
  destruct (axios _ _) as [r|e|]; simpl.
  - destruct (truthy r); simpl; rewrite app_nil_r; reflexivity.
  - destruct (truthy e); simpl; [reflexivity | rewrite app_nil_r; reflexivity].
  - rewrite app_nil_r. reflexivity.
Qed.

(** C5 as stated fails: a failure that carries [data.message] is broadcast
    with that message, not with the error object. *)
Lemma request_broadcast_payload_counterexample :
  refusing (network fresh) (request_call POST "login" json_content VNull)
  = Rejected refusal
  /\ broadcasts (snd (API.request refusing POST "login" json_content VNull fresh))
     = [Emit "error" (VStr "POST login") [VStr "Invalid credentials"]]
  /\ broadcasts (snd (API.request refusing POST "login" json_content VNull fresh))
     <> [Emit "error" (VStr "POST login") [refusal]].
Proof.
  split; [reflexivity|]. split; [reflexivity|]. vm_compute. discriminate.
Qed.

(** ** Login and signup *)

Lemma bind_normal {A B : Type} (m : M A) (k : A -> M B) (w w' : World) (a : A) :
  m w = (Normal a, w') -> bind m k w = k a w'.
Proof. intros H. unfold bind. rewrite H. reflexivity. Qed.

Lemma bind_throw {A B : Type} (m : M A) (k : A -> M B) (w w' : World) (e : value) :
  m w = (Throw e, w') -> bind m k w = (Throw e, w').
Proof. intros H. unfold bind. rewrite H. reflexivity. Qed.

Lemma member_ok (v : value) (k : string) (w : World) :
  nullish v = false -> member v k w = (Normal (opt_prop v k), w).
Proof.
  unfold member, opt_prop. destruct v; simpl; try discriminate; reflexivity.
Qed.

Lemma nullish_opt_prop (v : value) (k : string) :
  nullish (opt_prop v k) = false -> nullish v = false.
Proof. destruct v; simpl; try discriminate; reflexivity. Qed.

Section Login.

Variable axios : list call -> call -> settlement.

Lemma getGeolocation_spec (w : World) (reply : value) :
  axios (network w) geolocation_call = Resolved reply ->
  nullish (opt_prop reply "data") = false ->
  API.getGeolocation axios w = (Normal (geolocation_of reply), sent geolocation_call w).
Proof.
  intros Hcall Hdata. unfold API.getGeolocation.
  erewrite bind_normal; cycle 1.
  { unfold API.axios_call. fold geolocation_call. rewrite Hcall. reflexivity. }
  erewrite bind_normal by (apply member_ok; eapply nullish_opt_prop; eassumption).
  do 3 (erewrite bind_normal by (apply member_ok; assumption)).
  reflexivity.
Qed.

(** The world [login] leaves behind after a successful exchange. *)
Lemma login_try_success (w : World) (reply r : value) :
  axios (network w) geolocation_call = Resolved reply ->
  nullish (opt_prop reply "data") = false ->
  axios (network w ++ [geolocation_call])
        (request_call POST "login" json_content (credentials_form reply)) = Resolved r ->
  nullish (opt_prop r "data") = false ->
  User.login_try axios (VStr credentials_text) w =
  (Normal (opt_prop r "status"),
   printed (LogLine (VStr "Logged in successfully") [])
     (stored "me" (ToString (JSON_stringify (opt_prop (opt_prop r "data") "me")))
        (stored "username" "a"
           (stored "token" (ToString (opt_prop (opt_prop r "data") "token"))
              (after_request (Resolved r) (request_name POST "login")
                 (request_call POST "login" json_content (credentials_form reply))
                 (sent geolocation_call w)))))).
Proof.
  intros Hgeo Hdata Hcall Hr.
  assert (Hr0 : nullish r = false) by (eapply nullish_opt_prop; eassumption).
  unfold User.login_try.
  erewrite bind_normal by (apply getGeolocation_spec; eassumption).
  erewrite bind_normal by reflexivity.
  change (VObj (spread _ _)) with (credentials_form reply).
  erewrite bind_normal; cycle 1.
  { rewrite request_spec. simpl network. rewrite Hcall. reflexivity. }
  erewrite bind_normal by (apply member_ok; assumption).
  erewrite bind_normal by (apply member_ok; assumption).
  erewrite bind_normal by reflexivity.
  erewrite bind_normal by reflexivity.
  erewrite bind_normal by reflexivity.
  erewrite bind_normal by (apply member_ok; assumption).
  erewrite bind_normal by (apply member_ok; assumption).
  erewrite bind_normal by reflexivity.
  erewrite bind_normal by reflexivity.
  rewrite member_ok by assumption.
  reflexivity.
Qed.

End Login.

(** The login goes through when the credentials come as JSON text, which
    [login] parses with [JSON.parse].  Called with the JSON text of
    [{username: a, password: b}], when the geolocation lookup succeeds and
    the backend answers the login with a response whose data holds the
    token [T] and a profile [me], it leaves persisted storage with
    [token = T], [username = a] and the profile, as JSON text, under [me];
    the promise it returns resolves with the status of the response. *)
Theorem login_success (axios : list call -> call -> settlement)
    (w : World) (reply r : value) :
  axios (network w) geolocation_call = Resolved reply ->
  nullish (opt_prop reply "data") = false ->
  axios (network w ++ [geolocation_call])
        (request_call POST "login" json_content (credentials_form reply)) = Resolved r ->
  opt_prop (opt_prop r "data") "token" = VStr "T" ->
  fst (User.login axios (VStr credentials_text) w) = Resolved (opt_prop r "status")
  /\ localStorage (snd (User.login axios (VStr credentials_text) w)) !! "token"
     = Some "T"
  /\ localStorage (snd (User.login axios (VStr credentials_text) w)) !! "username"
     = Some "a"
  /\ localStorage (snd (User.login axios (VStr credentials_text) w)) !! "me"
     = Some (ToString (JSON_stringify (opt_prop (opt_prop r "data") "me"))).
Proof.
  intros Hgeo Hdata Hcall Htoken.
  assert (Hr : nullish (opt_prop r "data") = false).
  { destruct (opt_prop r "data"); simpl in *; try discriminate; reflexivity. }
  unfold User.login.
  rewrite (login_try_success axios w reply r Hgeo Hdata Hcall Hr).
  rewrite Htoken. cbn [fst snd printed stored localStorage ToString].
  split; [reflexivity|].
  split; [|split].
  - rewrite lookup_insert_ne by discriminate.
    rewrite lookup_insert_ne by discriminate.
    apply lookup_insert_eq.
  - rewrite lookup_insert_ne by discriminate.
    apply lookup_insert_eq.
  - apply lookup_insert_eq.
Qed.

Lemma login_success_witness :
  fst (User.login welcoming (VStr credentials_text) fresh) = Resolved (VNum 200)
  /\ localStorage (snd (User.login welcoming (VStr credentials_text) fresh)) !! "token"
     = Some "T"
  /\ localStorage (snd (User.login welcoming (VStr credentials_text) fresh)) !! "username"
     = Some "a"
  /\ localStorage (snd (User.login welcoming (VStr credentials_text) fresh)) !! "me"
     = Some (ToString (JSON_stringify
                         (VObj [("username", VStr "a"); ("points", VNum 3)]))).
Proof.
  apply (login_success welcoming fresh whois_reply welcome); reflexivity.
Defined.

(** C2 on the code.  Handed the credentials [{username: a, password: b}]
    as the object its documentation asks for, with a backend that would
    answer [{token: T, me}], [login] runs them through [JSON.parse], which
    throws: the promise is rejected with [undefined], the backend is never
    called, and storage holds neither token nor username. *)
Lemma login_given_object_rejects :
  fst (User.login welcoming credentials_object fresh) = Rejected VUndefined
  /\ localStorage (snd (User.login welcoming credentials_object fresh)) !! "token" = None
  /\ localStorage (snd (User.login welcoming credentials_object fresh)) !! "username"
     = None
  /\ network (snd (User.login welcoming credentials_object fresh)) = [geolocation_call].
Proof. vm_compute. repeat split; reflexivity. Qed.

(** C3 on the code.  The backend turns the login down with status 401:
    [request] swallows the failure and hands back [undefined], reading
    [response.data] throws a [TypeError], and the promise of [login] is
    rejected with the [status] of that [TypeError], which is [undefined],
    not with 401. *)
Lemma login_rejected_without_status :
  rejecting (network fresh ++ [geolocation_call])
            (request_call POST "login" json_content (credentials_form whois_reply))
  = Rejected unauthorized
  /\ fst (User.login rejecting (VStr credentials_text) fresh) = Rejected VUndefined
  /\ fst (User.login rejecting (VStr credentials_text) fresh) <> Rejected (VNum 401).
Proof.
  split; [reflexivity|]. split; [reflexivity|]. vm_compute. discriminate.
Qed.

(** Whatever the backend's refusal looks like, [login] rejects with
    [undefined]. *)
Lemma login_failure_rejects_undefined (axios : list call -> call -> settlement)
    (w : World) (reply e : value) :
  axios (network w) geolocation_call = Resolved reply ->
  nullish (opt_prop reply "data") = false ->
  axios (network w ++ [geolocation_call])
        (request_call POST "login" json_content (credentials_form reply)) = Rejected e ->
  fst (User.login axios (VStr credentials_text) w) = Rejected VUndefined.
Proof.
  intros Hgeo Hdata Hcall. unfold User.login, User.login_try.
  erewrite bind_normal by (apply getGeolocation_spec; eassumption).
  erewrite bind_normal by reflexivity.
  change (VObj (spread _ _)) with (credentials_form reply).
  erewrite bind_normal; cycle 1.
  { rewrite request_spec. simpl network. rewrite Hcall. reflexivity. }
  erewrite bind_throw by reflexivity.
  reflexivity.
Qed.

Ltac run_call :=
  repeat first
    [ erewrite bind_normal by (rewrite request_spec; reflexivity)
    | erewrite bind_normal by (apply member_ok; assumption)
    | erewrite bind_normal by reflexivity ];
  try (rewrite request_spec; reflexivity);
  try (rewrite member_ok by assumption; reflexivity).

(** Against a client that answers [r], every unwrapping call that reaches
    its request resolves with [r.data]. *)
Lemma perform_unwraps (c : unwrapping_call) (r : value) (w : World) :
  reaches_request c = true ->
  nullish r = false ->
  settle (fst (perform (answering r) c w)) = Resolved (opt_prop r "data").
Proof.
  intros Hc Hr.
  destruct c; simpl in Hc; cbn [perform];
    unfold Datacenter.fetchAll, Datacenter.fetchMachineCount, Datacenter.fetch,
      Datacenter.revokeMember, Datacenter.addMember, Datacenter.addMachine,
      User.fetchProfile, User.fetchMe, User.fetchLogs, User.save, User.addMachine,
      User.search, Machine.getNetwork, Machine.getMachineSpecs, Machine.getProcesses;
    try rewrite Hc;
    try match goal with |- context [if truthy ?m then _ else _] => destruct (truthy m) end;
    try (apply negb_true_iff in Hc);
    run_call.
Qed.

(** C4, as the code has it.  When the geolocation lookup succeeds and the
    backend answers the signup with a response [r], [signup] resolves with
    [r] itself, status and data, not with [r.data]; the calls written as
    [(await super.request(...)).data] resolve with the data of the response
    they get. *)
Theorem signup_whole_response (axios : list call -> call -> settlement)
    (json : value) (w : World) (reply r : value) :
  axios (network w) geolocation_call = Resolved reply ->
  nullish (opt_prop reply "data") = false ->
  axios (network w ++ [geolocation_call])
        (request_call POST "signup" json_content
           (VObj (spread json [("geolocation", geolocation_of reply)]))) = Resolved r ->
  settle (fst (User.signup axios json w)) = Resolved r
  /\ (forall (c : unwrapping_call) (r' : value) (w' : World),
        reaches_request c = true ->
        nullish r' = false ->
        settle (fst (perform (answering r') c w')) = Resolved (opt_prop r' "data")).
Proof.
  intros Hgeo Hdata Hcall. split.
  - unfold User.signup.
    erewrite bind_normal by (apply getGeolocation_spec; eassumption).
    rewrite request_spec. simpl network. rewrite Hcall. reflexivity.
  - intros c r' w'. apply perform_unwraps.
Qed.

Lemma signup_whole_response_witness :
  settle (fst (User.signup welcoming credentials_object fresh)) = Resolved welcome
  /\ (forall (c : unwrapping_call) (r' : value) (w' : World),
        reaches_request c = true ->
        nullish r' = false ->
        settle (fst (perform (answering r') c w')) = Resolved (opt_prop r' "data")).
Proof.
  apply (signup_whole_response welcoming credentials_object fresh whois_reply welcome);
    reflexivity.
Defined.

(** C4 as stated fails twice over: when the backend turns the signup
    down, [signup] resolves with [undefined], which carries neither status
    nor data; and [signup] is not alone in handing back the whole
    response, [Datacenter.add] does so too. *)
Lemma signup_every_input_counterexample :
  settle (fst (User.signup rejecting credentials_object fresh)) = Resolved VUndefined
  /\ settle (fst (Datacenter.add welcoming credentials_object fresh)) = Resolved welcome
  /\ Resolved welcome <> Resolved (opt_prop welcome "data").
Proof.
  split; [reflexivity|]. split; [reflexivity|]. vm_compute. discriminate.
Qed.

(** ** Short circuit of [fetchMachineCount] *)

(** C8.  With a falsy datacenter identifier [fetchMachineCount] resolves
    with [undefined] and leaves the world as it was: no request goes out,
    nothing is logged or broadcast, nothing is raised. *)
Theorem fetchMachineCount_falsy (axios : list call -> call -> settlement)
    (datacenter : value) (w : World) :
  truthy datacenter = false ->
  settle (fst (Datacenter.fetchMachineCount axios datacenter w)) = Resolved VUndefined
  /\ network (snd (Datacenter.fetchMachineCount axios datacenter w)) = network w
  /\ snd (Datacenter.fetchMachineCount axios datacenter w) = w.
Proof.
  intros H. unfold Datacenter.fetchMachineCount. rewrite H. repeat split.
Qed.

Lemma fetchMachineCount_falsy_witness :
  settle (fst (Datacenter.fetchMachineCount offline (VStr "") fresh)) = Resolved VUndefined
  /\ network (snd (Datacenter.fetchMachineCount offline (VStr "") fresh)) = network fresh
  /\ snd (Datacenter.fetchMachineCount offline (VStr "") fresh) = fresh.
Proof.
  apply (fetchMachineCount_falsy offline (VStr "") fresh). reflexivity.
Defined.

(** ** The realtime channel *)

Section Channel.

Variable s : Socket.

Hypothesis only_logging :
  listeners s = [("connect", console_log (PlainLine "[Socket] Connected"));
                 ("disconnect", console_log (PlainLine "[Socket] Disconnected"))].

Lemma fire_connect (w : World) :
  fire s "connect" w = printed (PlainLine "[Socket] Connected") w.
Proof. unfold fire. rewrite only_logging. reflexivity. Qed.

Lemma fire_disconnect (w : World) :
  fire s "disconnect" w = printed (PlainLine "[Socket] Disconnected") w.
Proof. unfold fire. rewrite only_logging. reflexivity. Qed.

(** Through the whole life of the channel storage is never read, and every
    connection presents the same payload. *)
Lemma live_invariant (hs : list happening) (presented : list value) (w : World) :
  reads (snd (live s hs presented w)) = reads w
  /\ fst (live s hs presented w) = presented ++ repeat (handshake s) (connections hs).
Proof.
  revert presented w. induction hs as [|h hs IH]; intros presented w.
  - simpl. rewrite app_nil_r. split; reflexivity.
  - destruct h as [| |k v]; simpl.
    + destruct (IH (presented ++ [handshake s]) (fire s "connect" w)) as [Hr Hp].
      rewrite Hr, Hp, fire_connect, <- app_assoc. split; reflexivity.
    + destruct (IH presented (fire s "disconnect" w)) as [Hr Hp].
      rewrite Hr, Hp, fire_disconnect. split; reflexivity.
    + destruct (IH presented (stored k (ToString v) w)) as [Hr Hp].
      rewrite Hr, Hp. split; reflexivity.
Qed.

End Channel.

(** C9.  Loading the module reads the token from storage once and builds
    the socket with the payload [{type: client, token}] around it.
    Whatever happens next (connections, disconnections, writes to storage)
    that read stays the only one, and every connection presents that same
    payload: a token stored later never reaches the channel. *)
Theorem channel_token_read_once (w : World) (hs : list happening) :
  exists s : Socket,
    socket w = (Normal s, looked_up "token" w)
    /\ handshake s = VObj [("type", VStr "client"); ("token", token_in w)]
    /\ reads (snd (live s hs [] (looked_up "token" w))) = reads w ++ ["token"]
    /\ fst (live s hs [] (looked_up "token" w))
       = repeat (VObj [("type", VStr "client"); ("token", token_in w)]) (connections hs).
Proof.
  eexists. split; [reflexivity|]. split; [reflexivity|].
  match goal with |- context [live ?s _ _ _] =>
    destruct (live_invariant s eq_refl hs [] (looked_up "token" w)) as [Hr Hp]
  end.
  rewrite Hr, Hp. split; reflexivity.
Qed.

(** A login between two connections: storage ends up with the new token,
    both connections presented the one read at load time. *)
Example relogin_keeps_old_token :
  forall s w, socket fresh = (Normal s, w) ->
    fst (live s relogin [] w)
    = [VObj [("type", VStr "client"); ("token", VNull)];
       VObj [("type", VStr "client"); ("token", VNull)]]
    /\ token_in (snd (live s relogin [] w)) = VStr "T".
Proof.
  intros s w H. vm_compute in H. injection H as <- <-. vm_compute. split; reflexivity.
Qed.

(** * Further properties *)

(** ** More on the dispatcher *)

Lemma after_request_storage (p : settlement) (name : value) (c : call) (w : World) :
  localStorage (after_request p name c w) = localStorage w.
Proof.
  destruct p as [r|e|]; simpl; try destruct (truthy _); reflexivity.
Qed.

Lemma after_request_reads (p : settlement) (name : value) (c : call) (w : World) :
  reads (after_request p name c w) = reads w.
Proof.
  destruct p as [r|e|]; simpl; try destruct (truthy _); reflexivity.
Qed.

(** X1.  Called with one of the five method names the client dispatches
    ([get], [delete], [post], [put], [patch]), [request] returns a promise
    that is not rejected: it resolves with the response when the call
    succeeds, with [undefined] when the call fails, and stays pending when
    the call never settles. *)
Theorem request_outcome (axios : list call -> call -> settlement)
    (method : verb) (route : string) (headers body : value) (w : World) :
  settle (fst (API.request axios method route headers body w)) =
  match axios (network w)
              (Call (verb_name method)
                    (match method with
                     | GET | DELETE =>
                         [VStr (API.constructEndpoint route);
                          or_else body (API.credentials headers)]
                     | _ =>
                         [VStr (API.constructEndpoint route); or_else body VUndefined;
                          API.credentials headers]
                     end)) with
  | Resolved r => Resolved r
  | Rejected _ => Resolved VUndefined
  | Pending => Pending
  end.
Proof.
  rewrite request_spec. unfold request_call, request_args. simpl fst.
  destruct (axios _ _); reflexivity.
Qed.

(** X2.  One [request] is one HTTP call, however it ends: nothing is
    retried, and persisted storage is neither written nor read. *)
Theorem request_single_call (axios : list call -> call -> settlement)
    (method : verb) (route : string) (headers body : value) (w : World) :
  (exists args,
     network (snd (API.request axios method route headers body w))
     = network w ++ [Call (verb_name method) args])
  /\ localStorage (snd (API.request axios method route headers body w)) = localStorage w
  /\ reads (snd (API.request axios method route headers body w)) = reads w.
Proof.
  rewrite request_spec. simpl snd.
  rewrite after_request_network, after_request_storage, after_request_reads.
  split; [|split; reflexivity]. eexists. reflexivity.
Qed.

(** X3.  What [request] prints: one line for a truthy response, one error
    line for a truthy rejection value, nothing for a falsy one or while
    the call is pending.  The line carries [VERB route] and
    [data.message], else [data], else the value itself. *)
Theorem request_console (axios : list call -> call -> settlement)
    (method : verb) (route : string) (headers body : value) (w : World) :
  console (snd (API.request axios method route headers body w)) =
  console w ++
    match axios (network w) (request_call method route headers body) with
    | Resolved r =>
        if truthy r
        then [LogLine (VStr (toUpperCase (verb_name method) +:+ " " +:+ route))
                      [if truthy (opt_prop (opt_prop r "data") "message")
                       then opt_prop (opt_prop r "data") "message"
                       else if truthy (opt_prop r "data") then opt_prop r "data"
                       else r]]
        else []
    | Rejected e =>
        if truthy e
        then [ErrorLine (VStr (toUpperCase (verb_name method) +:+ " " +:+ route))
                        [if truthy (opt_prop (opt_prop e "data") "message")
                         then opt_prop (opt_prop e "data") "message"
                         else if truthy (opt_prop e "data") then opt_prop e "data"
                         else e]]
        else []
    | Pending => []
    end.
Proof.
  rewrite request_spec. simpl snd.
  destruct (axios _ _) as [r|e|]; simpl.
  - destruct (truthy r); simpl; rewrite ?app_nil_r; reflexivity.
  - destruct (truthy e); simpl; rewrite ?app_nil_r; reflexivity.
  - rewrite app_nil_r. reflexivity.
Qed.

(** X4.  A GET or DELETE with a truthy body hands axios that body in the
    place of the options: the caller's headers and [withCredentials] are
    not sent unless the body itself carries them. *)
Theorem request_body_replaces_options (axios : list call -> call -> settlement)
    (method : verb) (route : string) (headers body : value) (w : World) :
  method = GET \/ method = DELETE ->
  truthy body = true ->
  network (snd (API.request axios method route headers body w)) =
  network w ++ [Call (verb_name method) [VStr (API.constructEndpoint route); body]].
Proof.
  intros Hm Hb. rewrite request_spec. simpl snd. rewrite after_request_network.
  unfold request_call, request_args, or_else. rewrite Hb.
  destruct Hm; subst; reflexivity.
Qed.

Lemma request_body_replaces_options_witness :
  network (snd (API.request offline GET "logs" json_content
                            (VObj [("params", VObj [("page", VNum 2)])]) fresh)) =
  [Call "get" [VStr "https://backend.xornet.cloud/logs";
               VObj [("params", VObj [("page", VNum 2)])]]].
Proof.
  apply (request_body_replaces_options offline GET "logs" json_content
           (VObj [("params", VObj [("page", VNum 2)])]) fresh).
  - left. reflexivity.
  - reflexivity.
Defined.

(** X5.  A POST, PUT or PATCH always carries the options
    [{ withCredentials: true, headers }] as its third argument; the body
    goes second, and a falsy body ([null], [0], the empty string, [false])
    is sent as [undefined]. *)
Theorem request_payload (axios : list call -> call -> settlement)
    (method : verb) (route : string) (headers body : value) (w : World) :
  method = POST \/ method = PUT \/ method = PATCH ->
  network (snd (API.request axios method route headers body w)) =
  network w ++
    [Call (verb_name method)
          [VStr (API.constructEndpoint route);
           (if truthy body then body else VUndefined);
           VObj [("withCredentials", VBool true); ("headers", headers)]]].
Proof.
  intros Hm. rewrite request_spec. simpl snd. rewrite after_request_network.
  destruct Hm as [->|[->| ->]]; reflexivity.
Qed.

Lemma request_payload_witness :
  network (snd (API.request offline PATCH "profile" multipart_content VNull fresh)) =
  [Call "patch" [VStr "https://backend.xornet.cloud/profile"; VUndefined;
                 VObj [("withCredentials", VBool true);
                       ("headers", multipart_content)]]].
Proof.
  apply (request_payload offline PATCH "profile" multipart_content VNull fresh).
  right. right. reflexivity.
Defined.

(** ** The geolocation lookup *)

Lemma member_cases (v : value) (k : string) (w : World) :
  member v k w =
  if nullish v
  then (Throw (TypeError ("Cannot read properties of " +:+ ToString v)), w)
  else (Normal (opt_prop v k), w).
Proof.
  unfold member, opt_prop. destruct v; reflexivity.
Qed.

Lemma getGeolocation_world (axios : list call -> call -> settlement) (w : World) :
  snd (API.getGeolocation axios w) = sent geolocation_call w.
Proof.
  unfold API.getGeolocation, bind, API.axios_call. fold geolocation_call.
  destruct (axios (network w) geolocation_call) as [reply| |]; simpl; try reflexivity.
  rewrite member_cases. destruct (nullish reply); [reflexivity|].
  rewrite member_cases. destruct (nullish (opt_prop reply "data")) eqn:H; [reflexivity|].
  repeat (rewrite member_cases, H). reflexivity.
Qed.

(** X6.  [getGeolocation] makes one call, to the lookup service, and
    nothing else.  It hands on the country, country code and provider of
    the reply's data; it rejects with the lookup's own error when the call
    fails, and with a [TypeError] when the reply has no data. *)
Theorem getGeolocation_outcome (axios : list call -> call -> settlement) (w : World) :
  snd (API.getGeolocation axios w)
  = MkWorld (localStorage w) (reads w) (console w) (broadcasts w)
            (network w ++ [Call "get" [VStr "https://ipwhois.app/json/"]])
  /\ match axios (network w) (Call "get" [VStr "https://ipwhois.app/json/"]) with
     | Resolved reply =>
         if nullish (opt_prop reply "data")
         then exists message,
                settle (fst (API.getGeolocation axios w)) = Rejected (TypeError message)
         else settle (fst (API.getGeolocation axios w))
              = Resolved (VObj [("location", opt_prop (opt_prop reply "data") "country");
                                ("countryCode",
                                 opt_prop (opt_prop reply "data") "country_code");
                                ("isp", opt_prop (opt_prop reply "data") "isp")])
     | Rejected e => settle (fst (API.getGeolocation axios w)) = Rejected e
     | Pending => settle (fst (API.getGeolocation axios w)) = Pending
     end.
Proof.
  split; [apply getGeolocation_world|].
  unfold API.getGeolocation, bind, API.axios_call.
  destruct (axios (network w) _) as [reply| |]; simpl; try reflexivity.
  rewrite member_cases. destruct (nullish reply) eqn:Hreply.
  - replace (opt_prop reply "data") with VUndefined
      by (destruct reply; simpl in *; try discriminate; reflexivity).
    simpl. eexists. reflexivity.
  - rewrite member_cases. destruct (nullish (opt_prop reply "data")) eqn:Hdata.
    + eexists. reflexivity.
    + repeat (rewrite member_cases, Hdata). reflexivity.
Qed.

(** ** Resource calls when things go wrong *)

(** X7.  When the backend fails, a call written as
    [(await super.request(...)).data] does not resolve with the error: it
    rejects with the [TypeError] of reading [data] from the [undefined]
    that [request] hands back. *)
Theorem unwrapping_call_fails (c : unwrapping_call) (e : value) (w : World) :
  reaches_request c = true ->
  exists message,
    settle (fst (perform (failing e) c w)) = Rejected (TypeError message).
Proof.
  intros Hc. exists "Cannot read properties of undefined".
  destruct c; simpl in Hc; cbn [perform];
    unfold Datacenter.fetchAll, Datacenter.fetchMachineCount, Datacenter.fetch,
      Datacenter.revokeMember, Datacenter.addMember, Datacenter.addMachine,
      User.fetchProfile, User.fetchMe, User.fetchLogs, User.save, User.addMachine,
      User.search, Machine.getNetwork, Machine.getMachineSpecs, Machine.getProcesses;
    try rewrite Hc;
    try match goal with |- context [if truthy ?m then _ else _] => destruct (truthy m) end;
    try (apply negb_true_iff in Hc);
    repeat first
      [ erewrite bind_normal by (rewrite request_spec; reflexivity)
      | erewrite bind_normal by (apply member_ok; assumption)
      | erewrite bind_normal by reflexivity ];
    reflexivity.
Qed.

Lemma unwrapping_call_fails_witness :
  exists message,
    settle (fst (perform (failing network_error) DatacenterFetchAll fresh))
    = Rejected (TypeError message).
Proof.
  apply (unwrapping_call_fails DatacenterFetchAll network_error fresh). reflexivity.
Defined.

(** X8.  The member and machine calls of a datacenter lower-case the
    user or machine identifier, and [save] trims the datacenter name: with
    an identifier that is not a string they reject with a [TypeError]
    before anything is sent, logged or stored. *)
Theorem identifier_must_be_string (axios : list call -> call -> settlement)
    (datacenter id logo banner : value) (w : World) :
  (forall s, id <> VStr s) ->
  exists message,
    Datacenter.revokeMember axios datacenter id w = (Throw (TypeError message), w)
    /\ Datacenter.addMember axios datacenter id w = (Throw (TypeError message), w)
    /\ Datacenter.addMachine axios datacenter id w = (Throw (TypeError message), w)
    /\ exists message',
         Datacenter.save axios id logo banner w = (Throw (TypeError message'), w).
Proof.
  intros H. exists "toLowerCase is not a function".
  unfold Datacenter.revokeMember, Datacenter.addMember, Datacenter.addMachine,
    Datacenter.save.
  destruct id; try (exfalso; eapply H; reflexivity);
    (repeat split; try reflexivity; eexists; reflexivity).
Qed.

Lemma identifier_must_be_string_witness :
  exists message,
    Datacenter.revokeMember welcoming (VStr "dc") (VNum 7) fresh
    = (Throw (TypeError message), fresh)
    /\ Datacenter.addMember welcoming (VStr "dc") (VNum 7) fresh
       = (Throw (TypeError message), fresh)
    /\ Datacenter.addMachine welcoming (VStr "dc") (VNum 7) fresh
       = (Throw (TypeError message), fresh)
    /\ exists message',
         Datacenter.save welcoming (VNum 7) VNull VNull fresh
         = (Throw (TypeError message'), fresh).
Proof.
  apply (identifier_must_be_string welcoming (VStr "dc") (VNum 7) VNull VNull fresh).
  intros s. discriminate.
Defined.

(** ** Login and signup when the lookup or the argument is bad *)

Lemma getGeolocation_rejected (axios : list call -> call -> settlement)
    (w : World) (e : value) :
  axios (network w) geolocation_call = Rejected e ->
  API.getGeolocation axios w = (Throw e, sent geolocation_call w).
Proof.
  intros H. unfold API.getGeolocation, bind, API.axios_call.
  fold geolocation_call. rewrite H. reflexivity.
Qed.

(** X9.  A failed geolocation lookup aborts [signup]: the promise rejects
    with the lookup's error, and the signup itself is never sent to the
    backend. *)
Theorem signup_lookup_failure (axios : list call -> call -> settlement)
    (json : value) (w : World) (e : value) :
  axios (network w) (Call "get" [VStr "https://ipwhois.app/json/"]) = Rejected e ->
  settle (fst (User.signup axios json w)) = Rejected e
  /\ network (snd (User.signup axios json w))
     = network w ++ [Call "get" [VStr "https://ipwhois.app/json/"]]
  /\ broadcasts (snd (User.signup axios json w)) = broadcasts w.
Proof.
  intros H. unfold User.signup.
  erewrite bind_throw by (apply getGeolocation_rejected; exact H).
  repeat split.
Qed.

Lemma signup_lookup_failure_witness :
  settle (fst (User.signup (without_lookup lookup_down) credentials_object fresh))
  = Rejected lookup_down
  /\ network (snd (User.signup (without_lookup lookup_down) credentials_object fresh))
     = network fresh ++ [Call "get" [VStr "https://ipwhois.app/json/"]]
  /\ broadcasts (snd (User.signup (without_lookup lookup_down) credentials_object fresh))
     = broadcasts fresh.
Proof.
  apply (signup_lookup_failure (without_lookup lookup_down) credentials_object fresh
           lookup_down).
  reflexivity.
Defined.

(** X10.  A failed geolocation lookup aborts [login] as well: the promise
    rejects with the [status] of the lookup's error, the backend is never
    called and storage is left alone. *)
Theorem login_lookup_failure (axios : list call -> call -> settlement)
    (json : value) (w : World) (e : value) :
  axios (network w) (Call "get" [VStr "https://ipwhois.app/json/"]) = Rejected e ->
  nullish e = false ->
  fst (User.login axios json w) = Rejected (opt_prop e "status")
  /\ network (snd (User.login axios json w))
     = network w ++ [Call "get" [VStr "https://ipwhois.app/json/"]]
  /\ localStorage (snd (User.login axios json w)) = localStorage w.
Proof.
  intros H He. unfold User.login, User.login_try.
  erewrite bind_throw by (apply getGeolocation_rejected; exact H).
  unfold User.login_catch.
  erewrite bind_normal by reflexivity.
  rewrite member_ok by assumption. repeat split.
Qed.

Lemma login_lookup_failure_witness :
  fst (User.login (without_lookup lookup_down) (VStr credentials_text) fresh)
  = Rejected (VNum 503)
  /\ network (snd (User.login (without_lookup lookup_down) (VStr credentials_text) fresh))
     = network fresh ++ [Call "get" [VStr "https://ipwhois.app/json/"]]
  /\ localStorage (snd (User.login (without_lookup lookup_down)
                                      (VStr credentials_text) fresh))
     = localStorage fresh.
Proof.
  apply (login_lookup_failure (without_lookup lookup_down) (VStr credentials_text)
           fresh lookup_down); reflexivity.
Defined.

(** X11.  When the lookup is rejected with [undefined] or [null], the
    [catch] block of [login] itself throws on [error.status]: the promise
    [login] returned is then neither resolved nor rejected. *)
Theorem login_never_settles (axios : list call -> call -> settlement)
    (json : value) (w : World) (e : value) :
  axios (network w) (Call "get" [VStr "https://ipwhois.app/json/"]) = Rejected e ->
  nullish e = true ->
  fst (User.login axios json w) = Pending.
Proof.
  intros H He. unfold User.login, User.login_try.
  erewrite bind_throw by (apply getGeolocation_rejected; exact H).
  unfold User.login_catch.
  erewrite bind_normal by reflexivity.
  rewrite member_cases, He. reflexivity.
Qed.

Lemma login_never_settles_witness :
  fst (User.login (without_lookup VUndefined) (VStr credentials_text) fresh) = Pending.
Proof.
  apply (login_never_settles (without_lookup VUndefined) (VStr credentials_text)
           fresh VUndefined); reflexivity.
Defined.

(** X12.  [login] handed an object, whatever its properties, gets as far
    as the geolocation lookup and then rejects with [undefined]: the
    object does not parse as JSON text, so the backend is never called
    and nothing is stored. *)
Theorem login_rejects_objects (axios : list call -> call -> settlement)
    (props : list (string * value)) (w : World) (reply : value) :
  axios (network w) (Call "get" [VStr "https://ipwhois.app/json/"]) = Resolved reply ->
  nullish (opt_prop reply "data") = false ->
  fst (User.login axios (VObj props) w) = Rejected VUndefined
  /\ network (snd (User.login axios (VObj props) w))
     = network w ++ [Call "get" [VStr "https://ipwhois.app/json/"]]
  /\ localStorage (snd (User.login axios (VObj props) w)) = localStorage w.
Proof.
  intros H Hdata. unfold User.login, User.login_try.
  erewrite bind_normal by (apply getGeolocation_spec; eassumption).
  erewrite bind_throw by reflexivity.
  repeat split.
Qed.

Lemma login_rejects_objects_witness :
  fst (User.login welcoming (VObj [("username", VStr "root")]) fresh)
  = Rejected VUndefined
  /\ network (snd (User.login welcoming (VObj [("username", VStr "root")]) fresh))
     = network fresh ++ [Call "get" [VStr "https://ipwhois.app/json/"]]
  /\ localStorage (snd (User.login welcoming (VObj [("username", VStr "root")]) fresh))
     = localStorage fresh.
Proof.
  apply (login_rejects_objects welcoming [("username", VStr "root")] fresh whois_reply);
    reflexivity.
Defined.

(** ** What [login] does to storage *)

Lemma getGeolocation_storage (axios : list call -> call -> settlement) (w : World)
    (c : completion value) (w' : World) :
  API.getGeolocation axios w = (c, w') -> localStorage w' = localStorage w.
Proof.
  intros H. pose proof (getGeolocation_world axios w) as Hw.
  rewrite H in Hw. simpl in Hw. subst w'. reflexivity.
Qed.

Lemma login_try_storage (axios : list call -> call -> settlement)
    (json : value) (w : World) :
  match User.login_try axios json w with
  | (Normal _, w') =>
      exists token username me,
        localStorage w' =
        <["me" := me]> (<["username" := username]> (<["token" := token]> (localStorage w)))
  | (_, w') => localStorage w' = localStorage w
  end.
Proof.
  unfold User.login_try. unfold bind at 1.
  destruct (API.getGeolocation axios w) as [[g| |] w1] eqn:Hgeo;
    pose proof (getGeolocation_storage _ _ _ _ Hgeo) as H1; try exact H1.
  unfold bind at 1. unfold JSON_parse.
  destruct (parse_text (ToString json)) as [credentials|]; simpl; [|exact H1].
  unfold bind at 1. rewrite request_spec.
  set (c := request_call _ _ _ _).
  pose proof (after_request_storage (axios (network w1) c) (request_name POST "login")
                c w1) as H2.
  set (w2 := after_request _ _ _ _) in *.
  assert (H3 : localStorage w2 = localStorage w) by congruence.
  destruct (request_completion (axios (network w1) c)) as [response| |];
    try exact H3.
  unfold bind at 1. rewrite member_cases.
  destruct (nullish response) eqn:Hresponse; [exact H3|].
  unfold bind at 1. rewrite member_cases.
  destruct (nullish (opt_prop response "data")) eqn:Hdata; [exact H3|].
  cbn -[ToString JSON_stringify insert].
  unfold bind at 1. rewrite member_cases, Hresponse.
  unfold bind at 1. rewrite member_cases, Hdata.
  cbn -[ToString JSON_stringify insert].
  rewrite member_cases, Hresponse.
  cbn -[ToString JSON_stringify insert].
  rewrite H3. eauto.
Qed.

(** X13.  [login] writes storage all or nothing.  Either its promise
    resolves and exactly the keys [token], [username] and [me] have been
    written, in that order, or it does not resolve and storage is as it
    was: a failed login leaves no half-written session. *)
Theorem login_storage_all_or_nothing (axios : list call -> call -> settlement)
    (json : value) (w : World) :
  (exists status token username me,
      fst (User.login axios json w) = Resolved status
      /\ localStorage (snd (User.login axios json w)) =
         <["me" := me]> (<["username" := username]> (<["token" := token]> (localStorage w))))
  \/ ((forall status, fst (User.login axios json w) <> Resolved status)
      /\ localStorage (snd (User.login axios json w)) = localStorage w).
Proof.
  pose proof (login_try_storage axios json w) as H. unfold User.login.
  destruct (User.login_try axios json w) as [[status|e|] w'].
  - left. destruct H as (token & username & me & H). exists status, token, username, me.
    split; [reflexivity | exact H].
  - right. unfold User.login_catch, bind, API.log, console_log. rewrite member_cases.
    destruct (nullish e); simpl; (split; [intros s; discriminate | exact H]).
  - right. split; [intros s; discriminate | exact H].
Qed.

(** ** Where the resource calls go *)

Lemma unwrap_world (axios : list call -> call -> settlement)
    (method : verb) (route : string) (headers body : value) (w : World) :
  snd ((response <- API.request axios method route headers body ;;
        member response "data") w)
  = snd (API.request axios method route headers body w).
Proof.
  unfold bind. destruct (API.request axios method route headers body w) as [[r| |] w'];
    try reflexivity.
  rewrite member_cases. destruct (nullish r); reflexivity.
Qed.

Lemma fetchMe_world (axios : list call -> call -> settlement) (w : World) :
  snd (User.fetchMe axios w)
  = snd (API.request axios GET ("profile/" +:+ stored_text "username" w)
                     VUndefined VUndefined (looked_up "username" w)).
Proof.
  unfold User.fetchMe. erewrite bind_normal by reflexivity.
  rewrite unwrap_world. unfold stored_text.
  destruct (localStorage w !! "username"); reflexivity.
Qed.

(** X14.  [fetchMe] reads the username from storage and asks for that
    user's profile; with no username stored it asks for the profile of
    the user [null]. *)
Theorem fetchMe_asks_for_stored_user (axios : list call -> call -> settlement)
    (w : World) :
  network (snd (User.fetchMe axios w)) =
  network w ++
    [Call "get"
          [VStr ("https://backend.xornet.cloud/profile/" +:+
                 match localStorage w !! "username" with
                 | Some name => name
                 | None => "null"
                 end);
           VObj [("withCredentials", VBool true); ("headers", VUndefined)]]]
  /\ reads (snd (User.fetchMe axios w)) = reads w ++ ["username"].
Proof.
  rewrite fetchMe_world, request_spec. simpl snd.
  rewrite after_request_network, after_request_reads. split; reflexivity.
Qed.

(** X15.  Login, then [fetchMe]: after the successful login of the user
    [a], [fetchMe] asks the backend for the profile of [a]. *)
Theorem login_then_fetchMe (axios : list call -> call -> settlement)
    (w : World) (reply r : value) :
  axios (network w) geolocation_call = Resolved reply ->
  nullish (opt_prop reply "data") = false ->
  axios (network w ++ [geolocation_call])
        (request_call POST "login" json_content (credentials_form reply)) = Resolved r ->
  nullish (opt_prop r "data") = false ->
  network (snd (User.fetchMe axios (snd (User.login axios (VStr credentials_text) w)))) =
  network (snd (User.login axios (VStr credentials_text) w)) ++
    [Call "get"
          [VStr "https://backend.xornet.cloud/profile/a";
           VObj [("withCredentials", VBool true); ("headers", VUndefined)]]].
Proof.
  intros Hgeo Hdata Hcall Hr.
  rewrite fetchMe_world, request_spec. simpl snd. rewrite after_request_network.
  unfold User.login.
  rewrite (login_try_success axios w reply r Hgeo Hdata Hcall Hr).
  cbn [snd]. unfold stored_text.
  cbn [localStorage printed stored looked_up network].
  rewrite lookup_insert_ne by discriminate.
  rewrite lookup_insert_eq. reflexivity.
Qed.

Lemma login_then_fetchMe_witness :
  network (snd (User.fetchMe welcoming
                  (snd (User.login welcoming (VStr credentials_text) fresh)))) =
  network (snd (User.login welcoming (VStr credentials_text) fresh)) ++
    [Call "get"
          [VStr "https://backend.xornet.cloud/profile/a";
           VObj [("withCredentials", VBool true); ("headers", VUndefined)]]].
Proof.
  apply (login_then_fetchMe welcoming fresh whois_reply welcome); reflexivity.
Defined.

(** X16.  [fetchLogs] asks for the logs of one machine when it is given a
    truthy identifier, and for the global logs otherwise, an empty
    identifier included. *)
Theorem fetchLogs_route (axios : list call -> call -> settlement)
    (machineUUID : value) (w : World) :
  network (snd (User.fetchLogs axios machineUUID w)) =
  network w ++
    [Call "get"
          [VStr ("https://backend.xornet.cloud/" +:+
                 (if truthy machineUUID then "logs/" +:+ ToString machineUUID
                  else "logs"));
           VObj [("withCredentials", VBool true); ("headers", VUndefined)]]].
Proof.
  unfold User.fetchLogs. destruct (truthy machineUUID);
    rewrite unwrap_world, request_spec; simpl snd; rewrite after_request_network;
    reflexivity.
Qed.

(** X17.  Every unwrapping call that reaches its request makes one HTTP
    call, to the origin, a slash, and a route; the route begins with a
    further slash for [search] and for no other call. *)
Theorem resource_urls (axios : list call -> call -> settlement)
    (c : unwrapping_call) (w : World) :
  reaches_request c = true ->
  exists name route rest,
    network (snd (perform axios c w)) =
    network w ++ [Call name (VStr (API.ROOT_PATH +:+ "/" +:+ route) :: rest)]
    /\ String.prefix "/" route = is_search c.
Proof.
  intros Hc.
  destruct c; simpl in Hc; cbn [perform is_search];
    unfold Datacenter.fetchAll, Datacenter.fetchMachineCount, Datacenter.fetch,
      Datacenter.revokeMember, Datacenter.addMember, Datacenter.addMachine,
      User.fetchProfile, User.fetchLogs, User.save, User.addMachine,
      User.search, Machine.getNetwork, Machine.getMachineSpecs, Machine.getProcesses;
    try rewrite Hc;
    try rewrite fetchMe_world;
    try match goal with |- context [if truthy ?m then _ else _] => destruct (truthy m) end;
    try (apply negb_true_iff in Hc);
    repeat first
      [ erewrite bind_normal by (apply member_ok; assumption)
      | erewrite bind_normal by reflexivity ];
    rewrite ?unwrap_world, request_spec; simpl snd; rewrite after_request_network;
    do 3 eexists; (split; [reflexivity | reflexivity]).
Qed.

Lemma resource_urls_witness :
  exists name route rest,
    network (snd (perform offline (UserSearch (VStr "bob")) fresh)) =
    network fresh ++ [Call name (VStr (API.ROOT_PATH +:+ "/" +:+ route) :: rest)]
    /\ String.prefix "/" route = is_search (UserSearch (VStr "bob")).
Proof.
  apply (resource_urls offline (UserSearch (VStr "bob")) fresh). reflexivity.
Defined.

(** ** The channel's listeners *)

Lemma live_effects (s : Socket) (hs : list happening) (presented : list value)
    (w : World) :
  listeners s = [("connect", console_log (PlainLine "[Socket] Connected"));
                 ("disconnect", console_log (PlainLine "[Socket] Disconnected"))] ->
  console (snd (live s hs presented w)) = console w ++ lifecycle_lines hs
  /\ network (snd (live s hs presented w)) = network w
  /\ broadcasts (snd (live s hs presented w)) = broadcasts w
  /\ localStorage (snd (live s hs presented w)) = written hs (localStorage w).
Proof.
  intros Hs. revert presented w.
  induction hs as [|h hs IH]; intros presented w.
  - simpl. rewrite app_nil_r. repeat split.
  - destruct h as [| |k v]; simpl.
    + destruct (IH (presented ++ [handshake s]) (fire s "connect" w))
        as (Hc & Hn & Hb & Hl).
      rewrite Hc, Hn, Hb, Hl, (fire_connect s Hs). simpl.
      rewrite <- app_assoc. repeat split.
    + destruct (IH presented (fire s "disconnect" w)) as (Hc & Hn & Hb & Hl).
      rewrite Hc, Hn, Hb, Hl, (fire_disconnect s Hs). simpl.
      rewrite <- app_assoc. repeat split.
    + destruct (IH presented (stored k (ToString v) w)) as (Hc & Hn & Hb & Hl).
      rewrite Hc, Hn, Hb, Hl. repeat split.
Qed.

(** X18.  The channel's own listeners only log.  Through any session the
    console gains one line per connection and disconnection, in order; no
    HTTP call is made and no error is broadcast; storage changes by the
    session's writes alone. *)
Theorem channel_only_logs (w : World) (hs : list happening) :
  exists (s : Socket) (w1 : World),
    socket w = (Normal s, w1)
    /\ console w1 = console w
    /\ console (snd (live s hs [] w1)) = console w ++ lifecycle_lines hs
    /\ network (snd (live s hs [] w1)) = network w
    /\ broadcasts (snd (live s hs [] w1)) = broadcasts w
    /\ localStorage (snd (live s hs [] w1)) = written hs (localStorage w).
Proof.
  do 2 eexists. split; [reflexivity|]. split; [reflexivity|].
  match goal with |- context [live ?s _ _ ?w1] =>
    destruct (live_effects s hs [] w1 eq_refl) as (Hc & Hn & Hb & Hl)
  end.
  rewrite Hc, Hn, Hb, Hl. repeat split.
Qed.

(** ** The dark-mode toggle *)

Lemma watcher_style (p : Page) :
  root_style (theme_watcher p) =
  fold_left (fun style entry => <[fst entry := ToString (snd entry)]> style)
            (if isDark p then darkStyle else lightStyle) (root_style p).
Proof. unfold theme_watcher. destruct (isDark p); reflexivity. Qed.

Lemma applied_style (table : list (string * value)) (style : gmap string string)
    (prop : string) :
  NoDup (List.map fst table) ->
  fold_left (fun style entry => <[fst entry := ToString (snd entry)]> style) table style
  !! prop =
  match List.find (fun entry => String.eqb prop (fst entry)) table with
  | Some entry => Some (ToString (snd entry))
  | None => style !! prop
  end.
Proof.
  revert style. induction table as [|[k v] table IH]; intros style Hnd; [reflexivity|].
  simpl in *. inversion Hnd as [|? ? Hk Hnd']; subst.
  rewrite (IH _ Hnd'). destruct (String.eqb_spec prop k) as [->|Hne].
  - destruct (List.find _ table) as [[k' v']|] eqn:Hfind.
    + apply List.find_some in Hfind as [Hin Heq]. simpl in Heq.
      apply String.eqb_eq in Heq. subst k'.
      exfalso. apply Hk. apply list_elem_of_In.
      change k with (fst (k, v')). apply List.in_map. exact Hin.
    + apply lookup_insert_eq.
  - destruct (List.find _ table); [reflexivity|].
    apply lookup_insert_ne. congruence.
Qed.

Lemma style_keys_distinct :
  NoDup (List.map fst darkStyle) /\ NoDup (List.map fst lightStyle).
Proof.
  split; apply (bool_decide_unpack _); vm_compute; exact I.
Qed.

Lemma watcher_applies (p : Page) (prop : string) (v : value) :
  In (prop, v) (if isDark p then darkStyle else lightStyle) ->
  root_style (theme_watcher p) !! prop = Some (ToString v).
Proof.
  intros Hin. rewrite watcher_style.
  destruct style_keys_distinct as [Hd Hl].
  destruct (isDark p); simpl in Hin;
    repeat (destruct Hin as [Hin|Hin]; [injection Hin as <- <-|]); try contradiction;
    rewrite applied_style by assumption; reflexivity.
Qed.

Lemma watcher_keeps (p : Page) (prop : string) :
  ~ In prop (List.map fst lightStyle) ->
  root_style (theme_watcher p) !! prop = root_style p !! prop.
Proof.
  intros Hout. rewrite watcher_style.
  destruct style_keys_distinct as [Hd Hl].
  assert (Hfind : forall table : list (string * value), List.map fst table = List.map fst lightStyle ->
            List.find (fun entry => String.eqb prop (fst entry)) table = None).
  { intros table Hkeys.
    destruct (List.find _ table) as [[k v]|] eqn:Hfind; [|reflexivity].
    apply List.find_some in Hfind as [Hin Heq]. simpl in Heq.
    apply String.eqb_eq in Heq. subst k.
    exfalso. apply Hout. rewrite <- Hkeys.
    change prop with (fst (prop, v)). apply List.in_map. exact Hin. }
  destruct (isDark p); rewrite applied_style by assumption;
    rewrite Hfind by reflexivity; reflexivity.
Qed.

(** X19.  Changing the flag applies the whole table of the new mode to
    the document root and persists the flag: each of the seven custom
    properties gets its dark or its light value, no other property is
    touched, and storage holds the flag's text under [dark].  Both tables
    set the same seven properties, so nothing of the old mode stays. *)
Theorem theme_toggle (p : Page) (b : bool) :
  b <> isDark p ->
  isDark (set_isDark b p) = b
  /\ localStorage (page_world (set_isDark b p)) !! "dark"
     = Some (if b then "true" else "false")
  /\ (forall prop v, In (prop, v) (if b then darkStyle else lightStyle) ->
        root_style (set_isDark b p) !! prop = Some (ToString v))
  /\ (forall prop, ~ In prop (List.map fst lightStyle) ->
        root_style (set_isDark b p) !! prop = root_style p !! prop).
Proof.
  intros Hb. unfold set_isDark.
  destruct (Bool.eqb b (isDark p)) eqn:E; [apply Bool.eqb_prop in E; contradiction|].
  split; [reflexivity|]. split.
  - cbn [theme_watcher page_world isDark localStorage_setItem snd stored localStorage].
    rewrite lookup_insert_eq. destruct b; reflexivity.
  - split.
    + intros prop v Hin. apply watcher_applies. exact Hin.
    + intros prop Hout.
      apply (watcher_keeps (MkPage (page_world p) (root_style p) b) prop Hout).
Qed.

Lemma theme_toggle_witness :
  isDark (set_isDark true (MkPage fresh empty false)) = true
  /\ localStorage (page_world (set_isDark true (MkPage fresh empty false))) !! "dark"
     = Some "true"
  /\ (forall prop v, In (prop, v) darkStyle ->
        root_style (set_isDark true (MkPage fresh empty false)) !! prop
        = Some (ToString v))
  /\ (forall prop, ~ In prop (List.map fst lightStyle) ->
        root_style (set_isDark true (MkPage fresh empty false)) !! prop
        = (empty : gmap string string) !! prop).
Proof.
  apply (theme_toggle (MkPage fresh empty false) true). discriminate.
Defined.

(** X20.  The preference survives a reload: loading the module on the
    storage a toggle left behind brings the flag back to what the toggle
    set, whatever the document's style is by then. *)
Theorem theme_round_trip (p : Page) (b : bool) (style : gmap string string) :
  b <> isDark p ->
  isDark (theme_load (page_world (set_isDark b p)) style) = b.
Proof.
  intros Hb. unfold set_isDark.
  destruct (Bool.eqb b (isDark p)) eqn:E; [apply Bool.eqb_prop in E; contradiction|].
  unfold theme_load.
  cbn [theme_watcher page_world isDark root_style localStorage_getItem
       localStorage_setItem snd stored localStorage looked_up].
  rewrite lookup_insert_eq. destruct b; reflexivity.
Qed.

Lemma theme_round_trip_witness :
  isDark (theme_load (page_world (set_isDark true (MkPage fresh empty false))) empty)
  = true.
Proof.
  apply (theme_round_trip (MkPage fresh empty false) true empty). discriminate.
Defined.

(** X21.  Loading the module turns dark mode on exactly when storage
    holds the text [true] under [dark]: then the dark table is applied and
    the flag persisted again.  With any other text, or none, the flag
    stays false and nothing is applied or written, the light table
    included. *)
Theorem theme_load_outcome (w : World) (style : gmap string string) :
  match localStorage w !! "dark" with
  | Some "true" =>
      isDark (theme_load w style) = true
      /\ localStorage (page_world (theme_load w style)) !! "dark" = Some "true"
      /\ (forall prop v, In (prop, v) darkStyle ->
            root_style (theme_load w style) !! prop = Some (ToString v))
  | _ =>
      theme_load w style
      = MkPage (MkWorld (localStorage w) (reads w ++ ["dark"]) (console w)
                        (broadcasts w) (network w))
               style false
  end.
Proof.
  unfold theme_load. cbn [localStorage_getItem page_world root_style isDark].
  destruct (localStorage w !! "dark") as [s|] eqn:Hs; [|reflexivity].
  destruct (String.eqb_spec s "true") as [->|Hne].
  - cbn. split; [reflexivity|]. split.
    + apply lookup_insert_eq.
    + intros prop v Hin.
      apply (watcher_applies (MkPage (looked_up "dark" w) style true)). exact Hin.
  - assert (E : is_true_text (VStr s) = false)
      by (simpl; apply String.eqb_neq; exact Hne).
    unfold set_isDark. rewrite E. cbn [isDark Bool.eqb].
    destruct s as [|c1 s]; [reflexivity|].
    repeat match goal with
           | |- match ?x with _ => _ end => destruct x; try reflexivity
           end.
    contradiction.
Qed.

(** ** The forms that are submitted *)

Lemma lookup_set_prop (k k' : string) (v : value) (props : list (string * value)) :
  lookup_prop k (set_prop k' v props)
  = if String.eqb k k' then v else lookup_prop k props.
Proof.
  induction props as [|[k0 v0] props IH]; simpl.
  - destruct (String.eqb k k'); reflexivity.
  - destruct (String.eqb_spec k' k0) as [->|Hne]; simpl.
    + destruct (String.eqb k k0); reflexivity.
    + rewrite IH. destruct (String.eqb_spec k k0) as [->|Hne'].
      * destruct (String.eqb_spec k0 k'); [congruence | reflexivity].
      * reflexivity.
Qed.

Lemma lookup_prop_app (k : string) (xs ys : list (string * value)) :
  lookup_prop k (xs ++ ys)
  = if existsb (fun entry => String.eqb k (fst entry)) xs
    then lookup_prop k xs else lookup_prop k ys.
Proof.
  induction xs as [|[k0 v0] xs IH]; simpl; [reflexivity|].
  destruct (String.eqb k k0); simpl; [reflexivity | exact IH].
Qed.

Lemma existsb_reversed {A : Type} (f : A -> bool) (l : list A) :
  existsb f (rev l) = existsb f l.
Proof.
  induction l as [|x l IH]; simpl; [reflexivity|].
  rewrite existsb_app, IH. simpl. rewrite orb_false_r. apply orb_comm.
Qed.

(** Reading a property of [{...base, ...props}]: the last value [props]
    gives it, or else what [base] has. *)
Lemma lookup_spread (k : string) (props base : list (string * value)) :
  lookup_prop k (spread (VObj props) base)
  = if existsb (fun entry => String.eqb k (fst entry)) props
    then lookup_prop k (rev props) else lookup_prop k base.
Proof.
  unfold spread. revert base.
  induction props as [|[k0 v0] props IH]; intros base; simpl; [reflexivity|].
  rewrite IH, lookup_set_prop, lookup_prop_app, existsb_reversed.
  destruct (existsb _ props); destruct (String.eqb k k0) eqn:E;
    simpl; rewrite ?E; reflexivity.
Qed.

(** X22.  The form [signup] submits is the caller's object with the
    geolocation of the lookup put in front: every property of the caller
    is sent as given, and a [geolocation] property of the caller's own
    replaces the one looked up. *)
Theorem signup_form (axios : list call -> call -> settlement)
    (props : list (string * value)) (w : World) (reply : value) :
  axios (network w) (Call "get" [VStr "https://ipwhois.app/json/"]) = Resolved reply ->
  nullish (opt_prop reply "data") = false ->
  exists form,
    network (snd (User.signup axios (VObj props) w)) =
    network w ++
      [Call "get" [VStr "https://ipwhois.app/json/"];
       Call "post" [VStr "https://backend.xornet.cloud/signup"; VObj form;
                    VObj [("withCredentials", VBool true);
                          ("headers", VObj [("Content-Type", VStr "application/json")])]]]
    /\ forall k,
         lookup_prop k form =
         if existsb (fun entry => String.eqb k (fst entry)) props
         then lookup_prop k (rev props)
         else if String.eqb k "geolocation"
              then VObj [("location", opt_prop (opt_prop reply "data") "country");
                         ("countryCode", opt_prop (opt_prop reply "data") "country_code");
                         ("isp", opt_prop (opt_prop reply "data") "isp")]
              else VUndefined.
Proof.
  intros Hgeo Hdata.
  exists (spread (VObj props) [("geolocation", geolocation_of reply)]). split.
  - unfold User.signup.
    erewrite bind_normal by (apply getGeolocation_spec; eassumption).
    rewrite request_spec. simpl snd. rewrite after_request_network.
    simpl network. rewrite <- app_assoc. reflexivity.
  - intros k. rewrite lookup_spread. reflexivity.
Qed.

Lemma signup_form_witness :
  exists form,
    network (snd (User.signup welcoming
                    (VObj [("username", VStr "a"); ("geolocation", VStr "Mars")]) fresh)) =
    network fresh ++
      [Call "get" [VStr "https://ipwhois.app/json/"];
       Call "post" [VStr "https://backend.xornet.cloud/signup"; VObj form;
                    VObj [("withCredentials", VBool true);
                          ("headers", VObj [("Content-Type", VStr "application/json")])]]]
    /\ forall k,
         lookup_prop k form =
         if existsb (fun entry => String.eqb k (fst entry))
                    [("username", VStr "a"); ("geolocation", VStr "Mars")]
         then lookup_prop k (rev [("username", VStr "a"); ("geolocation", VStr "Mars")])
         else if String.eqb k "geolocation"
              then VObj [("location", opt_prop (opt_prop whois_reply "data") "country");
                         ("countryCode",
                          opt_prop (opt_prop whois_reply "data") "country_code");
                         ("isp", opt_prop (opt_prop whois_reply "data") "isp")]
              else VUndefined.
Proof.
  apply (signup_form welcoming [("username", VStr "a"); ("geolocation", VStr "Mars")]
           fresh whois_reply); reflexivity.
Defined.

(** X23.  [User.save] submits four fields of the profile and no more:
    two profiles that agree on [bio], [socials], [badges] and [email]
    lead to the same request and the same outcome, whatever else they
    hold.  The form has three entries: the four fields as JSON text under
    [json], then the image and the banner, each kept when it is a [Blob]
    and turned into text otherwise. *)
Theorem save_sends_four_fields (axios : list call -> call -> settlement)
    (profile profile' image banner : value) (w : World) :
  nullish profile = false ->
  nullish profile' = false ->
  opt_prop profile "bio" = opt_prop profile' "bio" ->
  opt_prop profile "socials" = opt_prop profile' "socials" ->
  opt_prop profile "badges" = opt_prop profile' "badges" ->
  opt_prop profile "email" = opt_prop profile' "email" ->
  User.save axios profile image banner w = User.save axios profile' image banner w
  /\ network (snd (User.save axios profile image banner w)) =
     network w ++
       [Call "patch"
             [VStr "https://backend.xornet.cloud/profile";
              VFormData
                [("json", VStr (ToString (JSON_stringify
                                            (VObj [("bio", opt_prop profile "bio");
                                                   ("socials", opt_prop profile "socials");
                                                   ("badges", opt_prop profile "badges");
                                                   ("email", opt_prop profile "email")]))));
                 ("image", match image with
                           | VBlob _ => image
                           | _ => VStr (ToString image)
                           end);
                 ("banner", match banner with
                            | VBlob _ => banner
                            | _ => VStr (ToString banner)
                            end)];
              VObj [("withCredentials", VBool true);
                    ("headers",
                     VObj [("Content-Type", VStr "multipart/form-data")])]]].
Proof.
  intros Hp Hp' Hbio Hsocials Hbadges Hemail. unfold User.save.
  do 4 (erewrite bind_normal by (apply member_ok; exact Hp)).
  do 4 (erewrite (bind_normal (member profile' _)) by (apply member_ok; exact Hp')).
  rewrite Hbio, Hsocials, Hbadges, Hemail. split; [reflexivity|].
  rewrite unwrap_world, request_spec. simpl snd. rewrite after_request_network.
  reflexivity.
Qed.

Lemma save_sends_four_fields_witness :
  User.save welcoming (VObj [("bio", VStr "hi"); ("is_admin", VBool true)])
            (VBlob "PNG") VNull fresh
  = User.save welcoming (VObj [("bio", VStr "hi")]) (VBlob "PNG") VNull fresh
  /\ network (snd (User.save welcoming
                     (VObj [("bio", VStr "hi"); ("is_admin", VBool true)])
                     (VBlob "PNG") VNull fresh)) =
     network fresh ++
       [Call "patch"
             [VStr "https://backend.xornet.cloud/profile";
              VFormData
                [("json", VStr ("{" +:+ quoted "bio" +:+ ":" +:+ quoted "hi" +:+ "}"));
                 ("image", VBlob "PNG");
                 ("banner", VStr "null")];
              VObj [("withCredentials", VBool true);
                    ("headers",
                     VObj [("Content-Type", VStr "multipart/form-data")])]]].
Proof.
  apply (save_sends_four_fields welcoming
           (VObj [("bio", VStr "hi"); ("is_admin", VBool true)])
           (VObj [("bio", VStr "hi")]) (VBlob "PNG") VNull fresh); reflexivity.
Defined.

(** ** What [login] makes of the backend's answer *)

(** X24.  [login] takes the backend at its word.  Whenever the answer has
    data at all, the promise resolves with the answer's status, and
    storage receives the text of whatever the answer holds under [token]
    and [me]: for a missing token that is the text [undefined]. *)
Theorem login_trusts_response (axios : list call -> call -> settlement)
    (w : World) (reply r : value) :
  axios (network w) geolocation_call = Resolved reply ->
  nullish (opt_prop reply "data") = false ->
  axios (network w ++ [geolocation_call])
        (request_call POST "login" json_content (credentials_form reply)) = Resolved r ->
  nullish (opt_prop r "data") = false ->
  fst (User.login axios (VStr credentials_text) w) = Resolved (opt_prop r "status")
  /\ localStorage (snd (User.login axios (VStr credentials_text) w)) !! "token"
     = Some (ToString (opt_prop (opt_prop r "data") "token"))
  /\ localStorage (snd (User.login axios (VStr credentials_text) w)) !! "username"
     = Some "a"
  /\ localStorage (snd (User.login axios (VStr credentials_text) w)) !! "me"
     = Some (ToString (JSON_stringify (opt_prop (opt_prop r "data") "me"))).
Proof.
  intros Hgeo Hdata Hcall Hr. unfold User.login.
  rewrite (login_try_success axios w reply r Hgeo Hdata Hcall Hr).
  cbn [fst snd printed stored localStorage].
  split; [reflexivity|]. split; [|split].
  - rewrite lookup_insert_ne by discriminate.
    rewrite lookup_insert_ne by discriminate.
    apply lookup_insert_eq.
  - rewrite lookup_insert_ne by discriminate.
    apply lookup_insert_eq.
  - apply lookup_insert_eq.
Qed.

Lemma login_trusts_response_witness :
  fst (User.login (replying hollow) (VStr credentials_text) fresh) = Resolved (VNum 200)
  /\ localStorage (snd (User.login (replying hollow) (VStr credentials_text) fresh))
     !! "token" = Some "undefined"
  /\ localStorage (snd (User.login (replying hollow) (VStr credentials_text) fresh))
     !! "username" = Some "a"
  /\ localStorage (snd (User.login (replying hollow) (VStr credentials_text) fresh))
     !! "me" = Some "undefined".
Proof.
  apply (login_trusts_response (replying hollow) fresh whois_reply hollow); reflexivity.
Defined.

(** X25.  An answer without data is a failed login even when the HTTP
    call succeeded: the promise rejects with [undefined] and nothing is
    stored. *)
Theorem login_needs_data (axios : list call -> call -> settlement)
    (w : World) (reply r : value) :
  axios (network w) geolocation_call = Resolved reply ->
  nullish (opt_prop reply "data") = false ->
  axios (network w ++ [geolocation_call])
        (request_call POST "login" json_content (credentials_form reply)) = Resolved r ->
  nullish (opt_prop r "data") = true ->
  fst (User.login axios (VStr credentials_text) w) = Rejected VUndefined
  /\ localStorage (snd (User.login axios (VStr credentials_text) w)) = localStorage w.
Proof.
  intros Hgeo Hdata Hcall Hr. unfold User.login, User.login_try.
  erewrite bind_normal by (apply getGeolocation_spec; eassumption).
  erewrite bind_normal by reflexivity.
  change (VObj (spread _ _)) with (credentials_form reply).
  erewrite bind_normal; cycle 1.
  { rewrite request_spec. simpl network. rewrite Hcall. reflexivity. }
  set (w2 := after_request _ _ _ _).
  assert (Hw2 : localStorage w2 = localStorage w).
  { unfold w2. rewrite after_request_storage. reflexivity. }
  destruct (nullish r) eqn:Hr0.
  - erewrite bind_throw by (rewrite member_cases, Hr0; reflexivity).
    cbn. split; [reflexivity | exact Hw2].
  - erewrite bind_normal by (apply member_ok; assumption).
    erewrite bind_throw by (rewrite member_cases, Hr; reflexivity).
    cbn. split; [reflexivity | exact Hw2].
Qed.

Lemma login_needs_data_witness :
  fst (User.login (replying no_content) (VStr credentials_text) fresh)
  = Rejected VUndefined
  /\ localStorage (snd (User.login (replying no_content) (VStr credentials_text) fresh))
     = localStorage fresh.
Proof.
  apply (login_needs_data (replying no_content) fresh whois_reply no_content);
    reflexivity.
Defined.
